(** * Mesos/utils/verify-review-requests.py: selection and dispatch of
      review requests

    A shallow embedding of the script: the Python string primitives it
    relies on, the selection loop of [main] and the two plug-ins of
    [verify_reviews], followed by the properties of the run. *)

From Stdlib Require Import ZArith String Ascii List Lia.
From stdpp Require Import base option gmap strings list pretty.

#[local] Set Warnings "-register-all".

Local Open Scope string_scope.
Local Open Scope Z_scope.

(** ** Python string primitives *)

Module PyStr.

(** Characters removed by [str.strip()] without argument on a byte
    string: space, tab, line feed, vertical tab, form feed, carriage
    return. *)
Definition is_space (c : ascii) : bool :=
  let n := nat_of_ascii c in
  (n =? 32)%nat || ((9 <=? n)%nat && (n <=? 13)%nat).

Fixpoint lstrip (s : string) : string :=
  match s with
  | EmptyString => EmptyString
  | String c rest => if is_space c then lstrip rest else s
  end.

Fixpoint rstrip (s : string) : string :=
  match s with
  | EmptyString => EmptyString
  | String c rest =>
      match rstrip rest with
      | EmptyString => if is_space c then EmptyString else String c EmptyString
      | kept => String c kept
      end
  end.

(** [s.strip()] *)
Definition strip (s : string) : string := rstrip (lstrip s).

(** [s.split(sep)] for a one-character separator: never an empty
    list, empty fields are kept. *)
Fixpoint split (sep : ascii) (s : string) : list string :=
  match s with
  | EmptyString => [EmptyString]
  | String c rest =>
      if Ascii.eqb c sep then EmptyString :: split sep rest
      else match split sep rest with
           | [] => [String c EmptyString]
           | field :: fields => String c field :: fields
           end
  end.

(** [sep.join(items)] *)
Fixpoint join (sep : string) (items : list string) : string :=
  match items with
  | [] => EmptyString
  | [x] => x
  | x :: rest => x ++ sep ++ join sep rest
  end.

(** [c in s] for a character. *)
Fixpoint contains (c : ascii) (s : string) : bool :=
  match s with
  | EmptyString => false
  | String d rest => Ascii.eqb d c || contains c rest
  end.

(** [s.replace("%3A", ":")] *)
Fixpoint replace_3A (s : string) : string :=
  match s with
  | String "%" (String "3" (String "A" rest)) => String ":" (replace_3A rest)
  | String c rest => String c (replace_3A rest)
  | EmptyString => EmptyString
  end.

(** [str(n)] for an integer. *)
Definition str_int (n : Z) : string := pretty n.

(** A value substituted for [%s]: the script formats strings and
    integers. *)
Inductive value :=
| VStr (s : string)
| VInt (n : Z).

Definition str (v : value) : string :=
  match v with
  | VStr s => s
  | VInt n => str_int n
  end.

End PyStr.

(** ** Server normalisation of the Gearman plug-in *)

Definition DEFAULT_GEARMAN_PORT : Z := 4730.
Definition MESOS_REPOSITORY_ID : Z := 122.

(** One iteration of the loop over [parameters.servers.split(",")]: the
    entry appended to [servers]. *)
Definition normalize_server (server : string) : string :=
  let server := PyStr.strip server in
  let s_split := PyStr.split ":" server in
  let address := hd EmptyString s_split in
  let port :=
    if (length s_split =? 2)%nat
    then PyStr.VStr (nth 1 s_split EmptyString)
    else PyStr.VInt DEFAULT_GEARMAN_PORT in
  address ++ ":" ++ PyStr.str port.

Definition normalize_servers (servers : string) : list string :=
  map normalize_server (PyStr.split "," servers).

(** ** Values exchanged with the collaborators *)

(** The exceptions the script tells apart: [ReviewError], whose first
    argument is the text sent back to the review, and every other
    subclass of [Exception], carried with its [str()]. *)
Inductive exn :=
| ReviewError (arg0 : string)
| Exception (text : string).

(** What [json.loads] returns: objects are Python dicts. *)
Inductive json :=
| JNull
| JBool (b : bool)
| JNum (n : Z)
| JStr (s : string)
| JArr (items : list json)
| JObj (members : gmap string json).

(** [dict(unique=..., task=..., data=...)] *)
Record job := Job { unique : string; task : string; data : string }.

(** The [json] module. *)
Class JsonModule := {
  json_loads : string -> exn + json;
  json_dumps : json -> string;
}.

(** [urllib], [uuid], [time], [os.path] and the part of [dict.update]
    that does not take a mapping (the argument is then iterated as a
    sequence of key/value pairs). *)
Class Runtime := {
  urlencode : json -> exn + string;
  uuid4_hex : nat -> string;
  strftime : string -> string;
  script_abspath : string;
  update_from_pairs : gmap string json -> json -> exn + gmap string json;
}.

(** [common.ReviewBoardHandler]: the answers of the tracker during one
    run, each a function of the arguments of the call. [api] gives the
    list under the key "review_requests" of the response;
    [needs_verification] and [get_review_ids] return or raise. The
    calls [api] and [post_review], like [trigger_gearman_jobs] and
    [open], are taken to return: the script does not handle their
    failures. *)
Record ReviewBoardHandler_obj (review_request : Type) := Handler {
  api : string -> list review_request;
  needs_verification : review_request -> exn + bool;
  get_review_ids : review_request -> exn + list Z;
}.
Arguments Handler {review_request}.
Arguments api {review_request}.
Arguments needs_verification {review_request}.
Arguments get_review_ids {review_request}.

(** The names imported from [common]; [review_id] is
    [review_request["id"]]. *)
Class CommonModule (review_request : Type) := {
  REVIEWBOARD_URL : string;
  review_id : review_request -> Z;
  ReviewBoardHandler : string -> string -> ReviewBoardHandler_obj review_request;
}.

(** Calls received by the tracker. *)
Inductive tracker_call (review_request : Type) :=
| Api (url : string)
| NeedsVerification (r : review_request)
| GetReviewIds (r : review_request)
| PostReview (r : review_request) (message : string).
Arguments Api {review_request}.
Arguments NeedsVerification {review_request}.
Arguments GetReviewIds {review_request}.
Arguments PostReview {review_request}.

(** The command line after [argparse]: one of the two sub-commands. *)
Inductive plugin :=
| FilePlugin (out_file : string)
| GearmanPlugin (servers : string) (job_name : string) (params : option string).

Record Namespace := {
  user : string;
  password : string;
  reviews : Z;
  query : string;
  subcommand : plugin;
}.

(** ** The world the script acts on *)

Record world (review_request : Type) := World {
  stdout : list string;
  files : gmap string string;
  tracker : list (tracker_call review_request);
  gearman : list (list string * list job);
  uuids : nat;
}.
Arguments World {review_request}.
Arguments stdout {review_request}.
Arguments files {review_request}.
Arguments tracker {review_request}.
Arguments gearman {review_request}.
Arguments uuids {review_request}.

Definition LF : string := String (ascii_of_nat 10) EmptyString.

(** ** Computations

    A computation changes the world and returns or raises. When it
    raises, the world is the one reached at the raise. *)

Definition Run (W A : Type) : Type := W -> W * (exn + A).

Definition lift {W A} (r : exn + A) : Run W A := fun w => (w, r).

Definition raise {W A} (e : exn) : Run W A := lift (inl e).

#[global] Instance Run_ret {W} : MRet (Run W) :=
  fun A a => lift (inr a).

#[global] Instance Run_bind {W} : MBind (Run W) :=
  fun A B k m w =>
    match m w with
    | (w', inr a) => k a w'
    | (w', inl e) => (w', inl e)
    end.

(** [try: m except ...: h] *)
Definition try_except {W A} (m : Run W A) (h : exn -> Run W A) : Run W A :=
  fun w =>
    match m w with
    | (w', inl e) => h e w'
    | done => done
    end.

Section Program.
Context {review_request : Type}.
Context `{Json : !JsonModule, Rt : !Runtime, Common : !CommonModule review_request}.

Abbreviation world := (world review_request).
Abbreviation Run := (Run world).
Abbreviation lift := (@lift world _).

(** [for x in items: st = body x st] *)
Fixpoint for_each {A S} (items : list A) (body : A -> S -> Run S) (st : S)
  : Run S :=
  match items with
  | [] => mret st
  | x :: rest => st' ← body x st; for_each rest body st'
  end.

(** *** Effects *)

Definition print (line : string) : Run unit :=
  fun w => (World (stdout w ++ [line]) (files w) (tracker w) (gearman w)
                  (uuids w), inr tt).

(** [with open(path, 'w') as f: f.write(content)] *)
Definition write_file (path content : string) : Run unit :=
  fun w => (World (stdout w) (<[path := content]> (files w)) (tracker w)
                  (gearman w) (uuids w), inr tt).

Definition record (c : tracker_call review_request) (w : world) : world :=
  World (stdout w) (files w) (tracker w ++ [c]) (gearman w) (uuids w).

Definition call_api (h : ReviewBoardHandler_obj review_request)
    (url : string) : Run (list review_request) :=
  fun w => (record (Api url) w, inr (api h url)).

Definition call_needs_verification (h : ReviewBoardHandler_obj review_request)
    (r : review_request) : Run bool :=
  fun w => (record (NeedsVerification r) w, needs_verification h r).

Definition call_get_review_ids (h : ReviewBoardHandler_obj review_request)
    (r : review_request) : Run (list Z) :=
  fun w => (record (GetReviewIds r) w, get_review_ids h r).

Definition call_post_review (h : ReviewBoardHandler_obj review_request)
    (r : review_request) (message : string) : Run unit :=
  fun w => (record (PostReview r message) w, inr tt).

(** [uuid.uuid4().hex] *)
Definition uuid4 : Run string :=
  fun w => (World (stdout w) (files w) (tracker w) (gearman w)
                  (S (uuids w)), inr (uuid4_hex (uuids w))).

(** [GearmanClient(servers=servers, jobs=jobs).trigger_gearman_jobs()] *)
Definition trigger_gearman_jobs (servers : list string) (jobs : list job)
  : Run unit :=
  fun w => (World (stdout w) (files w) (tracker w)
                  (gearman w ++ [(servers, jobs)]) (uuids w), inr tt).

(** [d.update(v)] *)
Definition dict_update (d : gmap string json) (v : json)
  : exn + gmap string json :=
  match v with
  | JObj members => inr (members ∪ d)
  | other => update_from_pairs d other
  end.

(** *** verify_reviews *)

Definition base_params (review_id : string) : gmap string json :=
  {[ "REVIEW_ID" := JStr review_id;
     "OFFLINE_NODE_WHEN_COMPLETE" := JStr "false" ]}.

(** Body of [for review_id in review_ids]. *)
Definition prepare_job (task_name : string) (params : option string)
    (review_id : string) (jobs : list job) : Run (list job) :=
  print ("Preparing build job with review id: " ++ review_id) ;;
  job_params ←
    match params with
    | Some text =>
        extra ← lift (json_loads text);
        lift (dict_update (base_params review_id) extra)
    | None => mret (base_params review_id)
    end;
  token ← uuid4;
  mret (jobs ++ [Job token task_name (json_dumps (JObj job_params))])%list.

Definition verify_reviews (review_ids : list string) (parameters : Namespace)
  : Run unit :=
  let nr_reviews := length review_ids in
  print ("There are " ++ pretty nr_reviews
         ++ " review requests that need verification") ;;
  match subcommand parameters with
  | FilePlugin out_file =>
      write_file out_file (PyStr.join LF review_ids)
  | GearmanPlugin servers_arg job_name params =>
      let servers := normalize_servers servers_arg in
      if (length review_ids =? 0)%nat then mret tt
      else
        let task_name := "build:" ++ job_name in
        jobs ← for_each review_ids (prepare_job task_name params) [];
        trigger_gearman_jobs servers jobs
  end.

(** *** main *)

(** The two variables updated by the loop of [main]. *)
Record selection := Selection {
  num_reviews : Z;
  review_ids : list string;
}.

(** How the [try] statement of the loop is left. *)
Inductive flow :=
| Continue
| Proceed (needs_verification : bool).

(** Body of [for review_request in reversed(...)]. *)
Definition examine (handler : ReviewBoardHandler_obj review_request)
    (cap : Z) (r : review_request) (st : selection) : Run selection :=
  if (cap =? -1) || (num_reviews st <? cap) then
    outcome ←
      try_except
        (nv ← call_needs_verification handler r;
         if negb nv then mret Continue
         else
           call_get_review_ids handler r ;;
           mret (Proceed nv))
        (fun err =>
           match err with
           | ReviewError arg0 =>
               let message := "Bad review!" ++ LF ++ LF ++ "Error:" ++ LF
                              ++ arg0 in
               call_post_review handler r message ;;
               mret Continue
           | Exception text =>
               print ("Error occured: " ++ text) ;;
               print ("WARNING: Cannot find if review "
                      ++ PyStr.str_int (review_id r)
                      ++ " needs verification") ;;
               mret (Proceed false)
           end);
    match outcome with
    | Continue => mret st
    | Proceed nv =>
        if negb nv then mret st
        else mret (Selection (num_reviews st + 1)
                            (review_ids st ++ [PyStr.str_int (review_id r)])%list)
    end
  else mret st.

Definition select (handler : ReviewBoardHandler_obj review_request)
    (cap : Z) (review_requests : list review_request) : Run selection :=
  for_each (rev review_requests) (examine handler cap) (Selection 0 []).

Definition main (parameters : Namespace) : Run unit :=
  print (LF ++ strftime "%m-%d-%y_%T" ++ " - Running " ++ script_abspath) ;;
  decoded ← lift (json_loads (query parameters));
  encoded ← lift (urlencode decoded);
  let query_string := PyStr.replace_3A encoded in
  let review_requests_url :=
    REVIEWBOARD_URL ++ "/api/review-requests/?" ++ query_string in
  let handler := ReviewBoardHandler (user parameters) (password parameters) in
  review_requests ← call_api handler review_requests_url;
  chosen ← select handler (reviews parameters) review_requests;
  verify_reviews (review_ids chosen) parameters.

(** *** Notions used to state the properties *)

(** The needs-verification predicate returns true and the dependency
    chain resolves without an error. *)
Definition passes (handler : ReviewBoardHandler_obj review_request)
    (r : review_request) : bool :=
  match needs_verification handler r with
  | inr true =>
      match get_review_ids handler r with
      | inr _ => true
      | inl _ => false
      end
  | _ => false
  end.

(** The status check or the resolution of the chain raises [err]. *)
Definition resolution_raises (handler : ReviewBoardHandler_obj review_request)
    (r : review_request) (err : exn) : Prop :=
  needs_verification handler r = inl err
  \/ (needs_verification handler r = inr true
      /\ get_review_ids handler r = inl err).

(** A list cut at the cap: whole when the cap is -1, its first [cap]
    items otherwise (none for a cap below zero). *)
Definition truncate (cap : Z) (ids : list string) : list string :=
  if cap =? -1 then ids else take (Z.to_nat cap) ids.

(** The identifiers of the reviews that pass, oldest first. *)
Definition qualifying (handler : ReviewBoardHandler_obj review_request)
    (fetched : list review_request) : list string :=
  map (fun r => PyStr.str_int (review_id r))
      (filter (fun r => passes handler r = true) (rev fetched)).

(** The loop still selects: [parameters.reviews == -1 or num_reviews <
    parameters.reviews]. *)
Definition cap_open (cap : Z) (st : selection) : Prop :=
  cap = -1 \/ num_reviews st < cap.

(** The comments posted to the tracker so far. *)
Definition comment_of (c : tracker_call review_request)
  : option (review_request * string) :=
  match c with
  | PostReview r message => Some (r, message)
  | _ => None
  end.

Definition comments (w : world) : list (review_request * string) :=
  omap comment_of (tracker w).

(** The listing requests sent to the tracker so far. *)
Definition fetch_of (c : tracker_call review_request) : option string :=
  match c with
  | Api url => Some url
  | _ => None
  end.

Definition fetches (w : world) : list string := omap fetch_of (tracker w).

Definition bad_review_message (arg0 : string) : string :=
  "Bad review!" ++ LF ++ LF ++ "Error:" ++ LF ++ arg0.

Definition invalid_json (text : string) : Prop :=
  exists err, json_loads text = inl err.

(** The run raises before it has fetched, commented or dispatched
    anything. *)
Definition fails_at_startup (parameters : Namespace) (w : world) : Prop :=
  exists err w',
    main parameters w = (w', inl err)
    /\ fetches w' = fetches w
    /\ comments w' = comments w
    /\ gearman w' = gearman w
    /\ files w' = files w.

(** The URL requested by [main]. *)
Definition listing_url (encoded : string) : string :=
  REVIEWBOARD_URL ++ "/api/review-requests/?" ++ PyStr.replace_3A encoded.

(** The job descriptors built for [review_ids] when the caller's
    parameters are the mapping [extra] and [next] tokens have been
    drawn before. *)
Fixpoint job_descriptors (next : nat) (task_name : string)
    (extra : gmap string json) (review_ids : list string) : list job :=
  match review_ids with
  | [] => []
  | review_id :: rest =>
      Job (uuid4_hex next) task_name
          (json_dumps (JObj (extra ∪ base_params review_id)))
      :: job_descriptors (S next) task_name extra rest
  end.

(** The lines printed by [verify_reviews]. *)
Definition announce (n : nat) : string :=
  "There are " ++ pretty n ++ " review requests that need verification".

Definition preparing (review_id : string) : string :=
  "Preparing build job with review id: " ++ review_id.

(** The caller's parameters are absent, or a JSON object. *)
Definition params_mapping (params : option string)
    (extra : gmap string json) : Prop :=
  match params with
  | None => extra = ∅
  | Some text => json_loads text = inr (JObj extra)
  end.

(** The first line printed by [main], and the world once it is
    printed. *)
Definition banner : string :=
  LF ++ strftime "%m-%d-%y_%T" ++ " - Running " ++ script_abspath.

Definition started (w : world) : world :=
  World (stdout w ++ [banner]) (files w) (tracker w) (gearman w) (uuids w).

(** The loop condition as the script evaluates it. *)
Definition selecting (cap : Z) (st : selection) : bool :=
  (cap =? -1) || (num_reviews st <? cap).

(** The two lines printed when the resolution raises another error. *)
Definition warning_lines (r : review_request) (text : string) : list string :=
  ["Error occured: " ++ text;
   "WARNING: Cannot find if review " ++ PyStr.str_int (review_id r)
   ++ " needs verification"].

(** The reading of C2 as it is written: any malformed --query or
    --params text makes the run fail at startup. *)
Definition malformed_json_claim : Prop :=
  forall parameters w,
    (invalid_json (query parameters)
     \/ exists servers job_name text,
         subcommand parameters = GearmanPlugin servers job_name (Some text)
         /\ invalid_json text) ->
    fails_at_startup parameters w.

End Program.

(** ** Stand-ins for the collaborators

    Executable instances of the interfaces above, used to run the
    script on concrete command lines. *)

Module Sample.

Definition DQ : ascii := ascii_of_nat 34.

(** The text of a JSON string literal without escapes. *)
Definition quoted (s : string) : string := String DQ (s ++ String DQ EmptyString).

(** *** A JSON reader

    It covers ASCII texts made of objects, arrays, strings with the
    one-character escapes, integers and the literals [true], [false]
    and [null]; like [json.loads] it keeps the last of two equal
    keys and refuses trailing text. Fractions, exponents and [\u]
    escapes are not covered. *)

Definition is_json_space (c : ascii) : bool :=
  let n := nat_of_ascii c in
  (n =? 32)%nat || (n =? 9)%nat || (n =? 10)%nat || (n =? 13)%nat.

Fixpoint skip_space (s : string) : string :=
  match s with
  | String c rest => if is_json_space c then skip_space rest else s
  | EmptyString => s
  end.

Definition unescape (c : ascii) : option ascii :=
  if Ascii.eqb c DQ then Some DQ
  else match c with
       | "\"%char => Some "\"%char
       | "/"%char => Some "/"%char
       | "b"%char => Some (ascii_of_nat 8)
       | "f"%char => Some (ascii_of_nat 12)
       | "n"%char => Some (ascii_of_nat 10)
       | "r"%char => Some (ascii_of_nat 13)
       | "t"%char => Some (ascii_of_nat 9)
       | _ => None
       end.

(** The characters of a string literal, after its opening quote. *)
Fixpoint read_chars (s : string) : option (string * string) :=
  match s with
  | EmptyString => None
  | String c rest =>
      if Ascii.eqb c DQ then Some (EmptyString, rest)
      else if Ascii.eqb c "\" then
        match rest with
        | String e rest' =>
            match unescape e, read_chars rest' with
            | Some u, Some (body, tail) => Some (String u body, tail)
            | _, _ => None
            end
        | EmptyString => None
        end
      else if (nat_of_ascii c <? 32)%nat then None
      else match read_chars rest with
           | Some (body, tail) => Some (String c body, tail)
           | None => None
           end
  end.

Definition digit (c : ascii) : option Z :=
  let n := nat_of_ascii c in
  if (48 <=? n)%nat && (n <=? 57)%nat then Some (Z.of_nat (n - 48)) else None.

Fixpoint read_digits (acc : Z) (s : string) : Z * string :=
  match s with
  | String c rest =>
      match digit c with
      | Some d => read_digits (10 * acc + d) rest
      | None => (acc, s)
      end
  | EmptyString => (acc, s)
  end.

Definition read_natural (s : string) : option (Z * string) :=
  match s with
  | String c rest =>
      match digit c with
      | Some 0 => Some (0, rest)
      | Some d => Some (read_digits d rest)
      | None => None
      end
  | EmptyString => None
  end.

Definition integer_ends (s : string) : bool :=
  match s with
  | String c _ => negb (Ascii.eqb c "." || Ascii.eqb c "e" || Ascii.eqb c "E")
  | EmptyString => true
  end.

Definition read_integer (s : string) : option (Z * string) :=
  let signed :=
    match s with
    | String "-" rest =>
        match read_natural rest with
        | Some (n, tail) => Some (- n, tail)
        | None => None
        end
    | _ => read_natural s
    end in
  match signed with
  | Some (n, tail) => if integer_ends tail then Some (n, tail) else None
  | None => None
  end.

(** The members of an object, after its opening brace. *)
Fixpoint read_members (value : string -> option (json * string))
    (fuel : nat) (s : string) (acc : gmap string json)
  : option (json * string) :=
  match fuel with
  | O => None
  | S fuel =>
      match skip_space s with
      | String q rest =>
          if Ascii.eqb q DQ then
            match read_chars rest with
            | Some (key, rest) =>
                match skip_space rest with
                | String ":" rest =>
                    match value rest with
                    | Some (v, rest) =>
                        match skip_space rest with
                        | String "," rest =>
                            read_members value fuel rest (<[key := v]> acc)
                        | String "}" tail =>
                            Some (JObj (<[key := v]> acc), tail)
                        | _ => None
                        end
                    | None => None
                    end
                | _ => None
                end
            | None => None
            end
          else None
      | EmptyString => None
      end
  end.

(** The items of an array, after its opening bracket. *)
Fixpoint read_items (value : string -> option (json * string))
    (fuel : nat) (s : string) (acc : list json) : option (json * string) :=
  match fuel with
  | O => None
  | S fuel =>
      match value s with
      | Some (v, rest) =>
          match skip_space rest with
          | String "," rest => read_items value fuel rest (acc ++ [v])
          | String "]" tail => Some (JArr (acc ++ [v]), tail)
          | _ => None
          end
      | None => None
      end
  end.

Fixpoint read_value (fuel : nat) (s : string) : option (json * string) :=
  match fuel with
  | O => None
  | S fuel =>
      match skip_space s with
      | String "{" rest =>
          match skip_space rest with
          | String "}" tail => Some (JObj ∅, tail)
          | _ => read_members (read_value fuel) fuel rest ∅
          end
      | String "[" rest =>
          match skip_space rest with
          | String "]" tail => Some (JArr [], tail)
          | _ => read_items (read_value fuel) fuel rest []
          end
      | String "t" (String "r" (String "u" (String "e" tail))) =>
          Some (JBool true, tail)
      | String "f" (String "a" (String "l" (String "s" (String "e" tail)))) =>
          Some (JBool false, tail)
      | String "n" (String "u" (String "l" (String "l" tail))) =>
          Some (JNull, tail)
      | String c rest as text =>
          if Ascii.eqb c DQ then
            match read_chars rest with
            | Some (body, tail) => Some (JStr body, tail)
            | None => None
            end
          else
            match read_integer text with
            | Some (n, tail) => Some (JNum n, tail)
            | None => None
            end
      | EmptyString => None
      end
  end.

Definition loads (text : string) : exn + json :=
  match read_value (S (String.length text)) text with
  | Some (v, rest) =>
      match skip_space rest with
      | EmptyString => inr v
      | _ => inl (Exception "Extra data")
      end
  | None => inl (Exception "No JSON object could be decoded")
  end.

(** *** A JSON writer, with the separators of [json.dumps]; members
    are written in the order of [map_fold]. *)

Fixpoint escape (s : string) : string :=
  match s with
  | EmptyString => EmptyString
  | String c rest =>
      let n := nat_of_ascii c in
      if (n =? 34)%nat then String "\" (String DQ (escape rest))
      else if (n =? 92)%nat then String "\" (String "\" (escape rest))
      else if (n =? 10)%nat then String "\" (String "n" (escape rest))
      else if (n =? 13)%nat then String "\" (String "r" (escape rest))
      else if (n =? 9)%nat then String "\" (String "t" (escape rest))
      else String c (escape rest)
  end.

Fixpoint dumps (v : json) : string :=
  match v with
  | JNull => "null"
  | JBool true => "true"
  | JBool false => "false"
  | JNum n => pretty n
  | JStr s => quoted (escape s)
  | JArr items => "[" ++ PyStr.join ", " (map dumps items) ++ "]"
  | JObj members =>
      "{" ++ PyStr.join ", "
               (map_fold (fun k x acc =>
                            (quoted (escape k) ++ ": " ++ dumps x) :: acc)
                         [] members)
          ++ "}"
  end.

#[export] Instance json_module : JsonModule :=
  {| json_loads := loads; json_dumps := dumps |}.

(** *** urlencode, for an object of strings and integers *)

Definition hex_digit (n : nat) : ascii :=
  if (n <? 10)%nat then ascii_of_nat (48 + n) else ascii_of_nat (55 + n).

Definition is_unreserved (c : ascii) : bool :=
  let n := nat_of_ascii c in
  ((48 <=? n)%nat && (n <=? 57)%nat) || ((65 <=? n)%nat && (n <=? 90)%nat)
  || ((97 <=? n)%nat && (n <=? 122)%nat)
  || (n =? 95)%nat || (n =? 46)%nat || (n =? 45)%nat.

Fixpoint quote_plus (s : string) : string :=
  match s with
  | EmptyString => EmptyString
  | String c rest =>
      if is_unreserved c then String c (quote_plus rest)
      else if Ascii.eqb c " " then String "+" (quote_plus rest)
      else
        let n := nat_of_ascii c in
        String "%" (String (hex_digit (n / 16)) (String (hex_digit (n mod 16))
                                                        (quote_plus rest)))
  end.

Definition field (k : string) (v : json) : option string :=
  match v with
  | JStr s => Some (quote_plus k ++ "=" ++ quote_plus s)
  | JNum n => Some (quote_plus k ++ "=" ++ quote_plus (pretty n))
  | _ => None
  end.

Definition url_encode (v : json) : exn + string :=
  match v with
  | JObj members =>
      match map_fold (fun k x acc =>
                        match field k x, acc with
                        | Some f, Some fs => Some (f :: fs)
                        | _, _ => None
                        end) (Some []) members with
      | Some fields => inr (PyStr.join "&" fields)
      | None => inl (Exception "value outside the stand-in")
      end
  | _ => inl (Exception "not a valid non-string sequence or mapping object")
  end.

(** *** dict.update with a list of pairs whose keys are strings *)

Fixpoint add_pairs (d : gmap string json) (items : list json)
  : exn + gmap string json :=
  match items with
  | [] => inr d
  | JArr [JStr k; v] :: rest => add_pairs (<[k := v]> d) rest
  | JStr (String k (String v EmptyString)) :: rest =>
      add_pairs (<[String k EmptyString := JStr (String v EmptyString)]> d) rest
  | _ => inl (Exception "cannot convert dictionary update sequence element")
  end.

Definition from_pairs (d : gmap string json) (v : json)
  : exn + gmap string json :=
  match v with
  | JArr items => add_pairs d items
  | JStr EmptyString => inr d
  | _ => inl (Exception "object is not iterable")
  end.

#[export] Instance runtime : Runtime :=
  {| urlencode := url_encode;
     uuid4_hex := fun n => "token-" ++ pretty n;
     strftime := fun _ => "11-03-16_10:15:00";
     script_abspath := "/ci/Mesos/utils/verify-review-requests.py";
     update_from_pairs := from_pairs |}.

(** *** A scripted tracker *)

Inductive script :=
| Ready
| Verified
| Cyclic (why : string)
| StatusFails (why : string)
| ChainFails (why : string).

Record review := Review { id : Z; scripted : script }.

Definition scripted_status (r : review) : exn + bool :=
  match scripted r with
  | Verified => inr false
  | StatusFails why => inl (Exception why)
  | _ => inr true
  end.

Definition scripted_chain (r : review) : exn + list Z :=
  match scripted r with
  | Cyclic why => inl (ReviewError why)
  | ChainFails why => inl (Exception why)
  | _ => inr [id r]
  end.

Definition tracker_of (fetched : list review) : CommonModule review :=
  {| REVIEWBOARD_URL := "https://reviews.apache.org";
     review_id := id;
     ReviewBoardHandler := fun _ _ =>
       Handler (fun _ => fetched) scripted_status scripted_chain |}.

Definition boot : world review := World [] ∅ [] [] 0.

Definition pending_query : string :=
  "{" ++ quoted "status" ++ ": " ++ quoted "pending" ++ ", "
      ++ quoted "last-updated-from" ++ ": " ++ quoted "2016-11-03T02:15:00"
      ++ "}".

(** *** Sample runs *)

Definition inbox : list review :=
  [Review 1 Ready; Review 2 (Cyclic "2 -> 3 -> 2"); Review 3 Verified;
   Review 4 (StatusFails "HTTP 500"); Review 5 Ready;
   Review 6 (ChainFails "timed out")].

#[export] Instance common_module : CommonModule review := tracker_of inbox.

Definition handler : ReviewBoardHandler_obj review :=
  ReviewBoardHandler "bot" "secret".

Definition pending_filter : json :=
  JObj {[ "status" := JStr "pending";
          "last-updated-from" := JStr "2016-11-03T02:15:00" ]}.

Definition pending_encoded : string :=
  "status=pending&last-updated-from=2016-11-03T02%3A15%3A00".

Definition command_line (cap : Z) (target : plugin) : Namespace :=
  {| user := "bot"; password := "secret"; reviews := cap;
     query := pending_query; subcommand := target |}.

Definition to_file : plugin := FilePlugin "ids.txt".

Definition override_text : string :=
  "{" ++ quoted "OFFLINE_NODE_WHEN_COMPLETE" ++ ": " ++ quoted "true" ++ ", "
      ++ quoted "BRANCH" ++ ": " ++ quoted "master" ++ "}".

Definition override : gmap string json :=
  {[ "OFFLINE_NODE_WHEN_COMPLETE" := JStr "true"; "BRANCH" := JStr "master" ]}.

Definition to_queue (params : option string) : plugin :=
  GearmanPlugin "a.com,b.com:9999" "mesos-verify" params.

End Sample.

(** ** Further notions: strings *)

Module PyMore.

(** [s.count(c)] for a character. *)
Fixpoint count (c : ascii) (s : string) : nat :=
  match s with
  | EmptyString => 0
  | String d rest => (if Ascii.eqb d c then 1 else 0) + count c rest
  end.

(** [pat in s] *)
Fixpoint occurs (pat s : string) : bool :=
  String.prefix pat s
  || match s with
     | EmptyString => false
     | String _ rest => occurs pat rest
     end.

(** The string is empty or begins with a character that [strip] keeps. *)
Definition starts_clean (s : string) : Prop :=
  match s with
  | EmptyString => True
  | String c _ => PyStr.is_space c = false
  end.

Definition is_digit (c : ascii) : bool :=
  let n := nat_of_ascii c in (48 <=? n)%nat && (n <=? 57)%nat.

(** The characters of a decimal numeral. *)
Definition is_numeral_char (c : ascii) : bool :=
  is_digit c || Ascii.eqb c "-".

Fixpoint all_chars (p : ascii -> bool) (s : string) : bool :=
  match s with
  | EmptyString => true
  | String c rest => p c && all_chars p rest
  end.

Definition LF_char : ascii := ascii_of_nat 10.

End PyMore.

(** ** The default filter of parse_parameters *)

(** [datetime_before_string.split(".")[0]] *)
Definition last_updated_from (datetime_before_string : string) : string :=
  hd EmptyString (PyStr.split "." datetime_before_string).

(** [default_query], given the ISO text of the time eight hours ago. *)
Definition default_query (datetime_before_string : string) : gmap string json :=
  <[ "last-updated-from" := JStr (last_updated_from datetime_before_string) ]>
    {[ "status" := JStr "pending";
       "repository" := JNum MESOS_REPOSITORY_ID ]}.

(** ** Further notions: the calls of the selection loop *)

Section Observations.
Context {review_request : Type}.
Context `{Json : !JsonModule, Rt : !Runtime, Common : !CommonModule review_request}.

Definition ask_of (c : tracker_call review_request) : option review_request :=
  match c with
  | NeedsVerification r => Some r
  | _ => None
  end.

(** The reviews whose status was asked so far. *)
Definition asked (w : world review_request) : list review_request :=
  omap ask_of (tracker w).

Definition resolve_of (c : tracker_call review_request)
  : option review_request :=
  match c with
  | GetReviewIds r => Some r
  | _ => None
  end.

(** The reviews whose dependency chain was requested so far. *)
Definition resolved (w : world review_request) : list review_request :=
  omap resolve_of (tracker w).

(** The status check returns true. *)
Definition status_true (handler : ReviewBoardHandler_obj review_request)
    (r : review_request) : bool :=
  match needs_verification handler r with
  | inr true => true
  | _ => false
  end.

(** The exception that leaves the [try] block for [r], if any. *)
Definition raised (handler : ReviewBoardHandler_obj review_request)
    (r : review_request) : option exn :=
  match needs_verification handler r with
  | inl err => Some err
  | inr true =>
      match get_review_ids handler r with
      | inl err => Some err
      | inr _ => None
      end
  | inr false => None
  end.

(** The comment posted when [r] is examined, if any. *)
Definition cycle_comment (handler : ReviewBoardHandler_obj review_request)
    (r : review_request) : option (review_request * string) :=
  match raised handler r with
  | Some (ReviewError arg0) => Some (r, bad_review_message arg0)
  | _ => None
  end.

(** The lines printed when [r] is examined. *)
Definition warnings (handler : ReviewBoardHandler_obj review_request)
    (r : review_request) : list string :=
  match raised handler r with
  | Some (Exception text) => warning_lines r text
  | _ => []
  end.

(** The world once [verify_reviews] has printed its first line. *)
Definition announced (n : nat) (w : world review_request)
  : world review_request :=
  World (stdout w ++ [announce n]) (files w) (tracker w) (gearman w) (uuids w).

(** The [unique] fields drawn for [n] jobs after [next] draws. *)
Definition tokens (next n : nat) : list string :=
  map uuid4_hex (seq next n).

End Observations.

(** ** Further sample inputs *)

Module SampleMore.

(** A --params text that sets REVIEW_ID. *)
Definition pinned_text : string :=
  "{" ++ Sample.quoted "REVIEW_ID" ++ ": " ++ Sample.quoted "42" ++ "}".

Definition pinned : gmap string json := {[ "REVIEW_ID" := JStr "42" ]}.

(** A command line whose --query is the JSON number 5. *)
Definition number_query : Namespace :=
  {| user := "bot"; password := "secret"; reviews := -1;
     query := "5"; subcommand := Sample.to_file |}.

End SampleMore.

(** * Properties *)

(** ** Properties of the string primitives *)

Lemma split_nonempty sep s : PyStr.split sep s <> [].
Proof.
  destruct s as [|c s]; simpl; [discriminate|].
  destruct (Ascii.eqb c sep); [discriminate|].
  destruct (PyStr.split sep s); discriminate.
Qed.

Lemma split_fields_free sep s :
  Forall (fun field => PyStr.contains sep field = false) (PyStr.split sep s).
Proof.
  induction s as [|c s IH]; simpl.
  - repeat constructor.
  - destruct (Ascii.eqb c sep) eqn:E.
    + constructor; [reflexivity | exact IH].
    + destruct (PyStr.split sep s) as [|field fields].
      * repeat constructor. simpl. rewrite E. reflexivity.
      * inversion IH; subst. constructor; [|assumption].
        simpl. rewrite E. assumption.
Qed.

Lemma split_absent sep s :
  PyStr.contains sep s = false -> PyStr.split sep s = [s].
Proof.
  induction s as [|c s IH]; simpl; [reflexivity|].
  intros H. apply orb_false_elim in H as [Hc Hs].
  rewrite Hc, (IH Hs). reflexivity.
Qed.

Lemma hd_split_free sep s :
  PyStr.contains sep (hd EmptyString (PyStr.split sep s)) = false.
Proof.
  pose proof (split_fields_free sep s) as H.
  destruct (PyStr.split sep s); [reflexivity|].
  inversion H; assumption.
Qed.

Lemma split_at_sep sep a b :
  PyStr.contains sep a = false ->
  PyStr.split sep (a ++ String sep b) = a :: PyStr.split sep b.
Proof.
  induction a as [|c a IH]; simpl.
  - intros _. rewrite Ascii.eqb_refl. reflexivity.
  - intros H. apply orb_false_elim in H as [Hc Ha].
    rewrite Hc, (IH Ha). reflexivity.
Qed.

Lemma normalize_server_default server :
  PyStr.contains ":" (PyStr.strip server) = false ->
  normalize_server server = PyStr.strip server ++ ":4730".
Proof.
  intros H. unfold normalize_server. rewrite (split_absent _ _ H). reflexivity.
Qed.

Lemma normalize_server_explicit server host port :
  PyStr.strip server = host ++ String ":" port ->
  PyStr.contains ":" host = false ->
  PyStr.contains ":" port = false ->
  normalize_server server = host ++ ":" ++ port.
Proof.
  intros E Hh Hp. unfold normalize_server.
  rewrite E, (split_at_sep _ _ _ Hh), (split_absent _ _ Hp). reflexivity.
Qed.

Lemma normalize_server_shape server :
  exists host port,
    normalize_server server = host ++ ":" ++ port
    /\ PyStr.contains ":" host = false.
Proof.
  unfold normalize_server. eexists _, _. split; [reflexivity|].
  apply hd_split_free.
Qed.

(** C7: every entry of the normalised server list has the form
    host:port, where host holds no colon; an entry written without a
    port gets port 4730, an entry written host:port keeps its port; and
    "a.com,b.com:9999" normalises to ["a.com:4730"; "b.com:9999"]. *)
Theorem servers_normalized :
  (forall servers,
      Forall (fun entry => exists host port,
                  entry = host ++ ":" ++ port
                  /\ PyStr.contains ":" host = false)
             (normalize_servers servers))
  /\ (forall server,
         PyStr.contains ":" (PyStr.strip server) = false ->
         normalize_server server
         = PyStr.strip server ++ ":" ++ PyStr.str_int DEFAULT_GEARMAN_PORT)
  /\ (forall server host port,
         PyStr.strip server = host ++ String ":" port ->
         PyStr.contains ":" host = false ->
         PyStr.contains ":" port = false ->
         normalize_server server = host ++ ":" ++ port)
  /\ PyStr.str_int DEFAULT_GEARMAN_PORT = "4730"
  /\ normalize_servers "a.com,b.com:9999" = ["a.com:4730"; "b.com:9999"].
Proof.
  split; [|split; [|split; [|split]]].
  - intros servers. unfold normalize_servers.
    apply List.Forall_map, List.Forall_forall. intros server _.
    apply normalize_server_shape.
  - intros server H. rewrite (normalize_server_default _ H). reflexivity.
  - exact normalize_server_explicit.
  - reflexivity.
  - vm_compute. reflexivity.
Qed.

Lemma servers_normalized_witness :
  PyStr.contains ":" (PyStr.strip " a.com ") = false
  /\ normalize_server " a.com " = "a.com:4730"
  /\ normalize_server "b.com:9999 " = "b.com:9999".
Proof.
  destruct servers_normalized as (_ & Hdefault & Hexplicit & _).
  split; [reflexivity|]. split.
  - apply (Hdefault " a.com "). reflexivity.
  - apply (Hexplicit "b.com:9999 " "b.com" "9999"); reflexivity.
Defined.

Section Properties.
Context {review_request : Type}.
Context `{Json : !JsonModule, Rt : !Runtime, Common : !CommonModule review_request}.

Implicit Types (w : world review_request) (st : selection).
Implicit Types (handler : ReviewBoardHandler_obj review_request).

(** *** Running binds *)

Lemma run_bind {A B} (m : Run (world review_request) A)
    (k : A -> Run (world review_request) B) w :
  (m ≫= k) w
  = match m w with
    | (w', inr a) => k a w'
    | (w', inl e) => (w', inl e)
    end.
Proof. reflexivity. Qed.

Lemma for_each_app {A S} (xs ys : list A)
    (body : A -> S -> Run (world review_request) S) (s : S) w :
  for_each (xs ++ ys) body s w
  = match for_each xs body s w with
    | (w', inr s') => for_each ys body s' w'
    | (w', inl e) => (w', inl e)
    end.
Proof.
  revert s w. induction xs as [|x xs IH]; intros s w; simpl; [reflexivity|].
  rewrite !run_bind. destruct (body x s w) as [w' [e|s']]; [reflexivity|].
  apply IH.
Qed.

(** *** verify_reviews *)

Lemma prepare_job_run task_name params extra review_id jobs w :
  params_mapping params extra ->
  prepare_job task_name params review_id jobs w
  = (World (stdout w ++ [preparing review_id]) (files w) (tracker w)
           (gearman w) (S (uuids w)),
     inr (jobs ++ [Job (uuid4_hex (uuids w)) task_name
                       (json_dumps (JObj (extra ∪ base_params review_id)))])%list).
Proof.
  intros Hp. unfold prepare_job. rewrite run_bind. simpl.
  destruct params as [text|]; simpl in Hp.
  - rewrite !run_bind. unfold lift. rewrite Hp. reflexivity.
  - subst extra. rewrite (left_id_L ∅ (∪)). reflexivity.
Qed.

Lemma prepare_jobs_run task_name params extra review_ids jobs w :
  params_mapping params extra ->
  for_each review_ids (prepare_job task_name params) jobs w
  = (World (stdout w ++ map preparing review_ids) (files w) (tracker w)
           (gearman w) (uuids w + length review_ids)%nat,
     inr (jobs ++ job_descriptors (uuids w) task_name extra review_ids)%list).
Proof.
  intros Hp. revert jobs w.
  induction review_ids as [|review_id rest IH]; intros jobs w; simpl.
  - rewrite !app_nil_r, Nat.add_0_r. destruct w; reflexivity.
  - rewrite run_bind, (prepare_job_run _ _ _ _ _ _ Hp), IH. simpl.
    rewrite <- !app_assoc, Nat.add_succ_r. reflexivity.
Qed.

Lemma overlay_lookup (extra base : gmap string json) (k : string) :
  (extra ∪ base) !! k
  = match extra !! k with
    | Some v => Some v
    | None => base !! k
    end.
Proof.
  rewrite lookup_union. destruct (extra !! k), (base !! k); reflexivity.
Qed.

Lemma job_descriptors_related next task_name extra ids :
  Forall2 (fun review_id j =>
             task j = task_name
             /\ data j = json_dumps (JObj (extra ∪ base_params review_id)))
          ids (job_descriptors next task_name extra ids).
Proof.
  revert next. induction ids as [|x ids IH]; intros next; simpl;
    constructor; auto.
Qed.

(** C8: with the file plug-in the run of [verify_reviews] returns and
    leaves in the output file exactly the identifiers joined by line
    feeds, whatever the file held; nothing else is written, posted or
    submitted. For ["5"; "9"] the content is "5", a line feed, "9";
    for the empty list it is empty. *)
Theorem file_plugin_output ids parameters out_file w :
  subcommand parameters = FilePlugin out_file ->
  (exists w',
      verify_reviews ids parameters w = (w', inr tt)
      /\ files w' = <[out_file := PyStr.join LF ids]> (files w)
      /\ files w' !! out_file = Some (PyStr.join LF ids)
      /\ tracker w' = tracker w
      /\ gearman w' = gearman w)
  /\ PyStr.join LF ["5"; "9"] = String "5" (String (ascii_of_nat 10) "9")
  /\ PyStr.join LF [] = "".
Proof.
  intros Hplug. split; [|split; reflexivity].
  unfold verify_reviews. rewrite Hplug, run_bind. simpl.
  eexists. split; [reflexivity|]. simpl.
  split; [reflexivity|]. split; [apply lookup_insert_eq|].
  split; reflexivity.
Qed.

(** C9: with the Gearman plug-in and no selected identifier,
    [verify_reviews] only prints its first line: no token is drawn,
    no job descriptor is built and the queue client receives no
    call, whatever the --params text. *)
Theorem gearman_empty_selection parameters servers job_name params w :
  subcommand parameters = GearmanPlugin servers job_name params ->
  verify_reviews [] parameters w
  = (World (stdout w ++ [announce 0]) (files w) (tracker w) (gearman w)
           (uuids w), inr tt)
  /\ job_descriptors (uuids w) ("build:" ++ job_name) ∅ [] = []
  /\ gearman (verify_reviews [] parameters w).1 = gearman w
  /\ uuids (verify_reviews [] parameters w).1 = uuids w.
Proof.
  intros Hplug. unfold verify_reviews. rewrite Hplug, run_bind. simpl.
  repeat split; reflexivity.
Qed.

(** C6: with the Gearman plug-in and a non-empty selection, when
    --params is absent or a JSON object, one batch is submitted with
    one job per identifier; the parameters of each job are the base
    parameters (REVIEW_ID the identifier, OFFLINE_NODE_WHEN_COMPLETE
    "false") overlaid with the caller's: a key of the caller's
    mapping has the caller's value, any other key its base value. *)
Theorem job_parameters_overlay ids parameters servers job_name params extra w :
  subcommand parameters = GearmanPlugin servers job_name params ->
  params_mapping params extra ->
  ids <> [] ->
  (exists w' jobs,
      verify_reviews ids parameters w = (w', inr tt)
      /\ gearman w' = (gearman w ++ [(normalize_servers servers, jobs)])%list
      /\ jobs = job_descriptors (uuids w) ("build:" ++ job_name) extra ids
      /\ Forall2 (fun review_id j =>
                    task j = "build:" ++ job_name
                    /\ data j
                       = json_dumps (JObj (extra ∪ base_params review_id)))
                 ids jobs)
  /\ (forall review_id k,
         (extra ∪ base_params review_id) !! k
         = match extra !! k with
           | Some v => Some v
           | None => base_params review_id !! k
           end)
  /\ (forall review_id,
         base_params review_id !! "REVIEW_ID" = Some (JStr review_id)
         /\ base_params review_id !! "OFFLINE_NODE_WHEN_COMPLETE"
            = Some (JStr "false")
         /\ forall k, k <> "REVIEW_ID" -> k <> "OFFLINE_NODE_WHEN_COMPLETE" ->
                      base_params review_id !! k = None).
Proof.
  intros Hplug Hp Hne. split; [|split].
  - unfold verify_reviews. rewrite Hplug, run_bind. simpl.
    destruct ids as [|review_id rest]; [congruence|].
    cbn [length Nat.eqb]. rewrite run_bind.
    rewrite (prepare_jobs_run _ _ _ _ _ _ Hp). simpl.
    eexists _, _. split; [reflexivity|]. simpl.
    split; [reflexivity|]. split; [reflexivity|].
    apply (job_descriptors_related _ _ _ (review_id :: rest)).
  - intros. apply overlay_lookup.
  - intros review_id. unfold base_params. split; [|split].
    + apply lookup_insert_eq.
    + rewrite lookup_insert_ne by discriminate. apply lookup_singleton_eq.
    + intros k H1 H2. rewrite lookup_insert_ne by congruence.
      apply lookup_singleton_ne. congruence.
Qed.


(** *** The selection loop *)

Lemma selecting_open cap st : selecting cap st = true <-> cap_open cap st.
Proof.
  unfold selecting, cap_open. rewrite orb_true_iff, Z.eqb_eq, Z.ltb_lt.
  reflexivity.
Qed.

Lemma selecting_closed cap st :
  cap <> -1 -> cap <= num_reviews st -> selecting cap st = false.
Proof.
  intros Hne Hle. unfold selecting. apply orb_false_intro.
  - apply Z.eqb_neq. exact Hne.
  - apply Z.ltb_ge. exact Hle.
Qed.

(** An iteration never raises; it extends the selection exactly when
    the loop is still selecting and the review passes. *)
Lemma examine_selection handler cap r st w :
  exists w',
    examine handler cap r st w
    = (w', inr (if selecting cap st && passes handler r
                then Selection (num_reviews st + 1)
                       (review_ids st ++ [PyStr.str_int (review_id r)])
                else st)).
Proof.
  unfold passes. fold (selecting cap st) in *.
  unfold examine. fold (selecting cap st).
  destruct (selecting cap st); simpl; [|eexists; reflexivity].
  unfold try_except, call_needs_verification, call_get_review_ids,
    call_post_review, print.
  rewrite !run_bind. simpl.
  destruct (needs_verification handler r) as [[a|t]|[|]]; simpl;
    try (eexists; reflexivity).
  destruct (get_review_ids handler r) as [[a|t]|ids]; simpl;
    eexists; reflexivity.
Qed.

Lemma examine_closed handler cap r st w :
  selecting cap st = false -> examine handler cap r st w = (w, inr st).
Proof.
  intros Hsel. unfold examine. fold (selecting cap st). rewrite Hsel.
  reflexivity.
Qed.

Lemma for_each_closed handler cap l st w :
  selecting cap st = false ->
  for_each l (examine handler cap) st w = (w, inr st).
Proof.
  intros Hsel. induction l as [|r l IH]; simpl; [reflexivity|].
  rewrite run_bind, (examine_closed _ _ _ _ _ Hsel). exact IH.
Qed.

Lemma for_each_selection handler cap l st w :
  exists w' st',
    for_each l (examine handler cap) st w = (w', inr st')
    /\ review_ids st'
       = (review_ids st
          ++ let passed := map (fun r => PyStr.str_int (review_id r))
                               (filter (fun r => passes handler r = true) l) in
             if cap =? -1 then passed
             else take (Z.to_nat (cap - num_reviews st)) passed)%list
    /\ num_reviews st'
       = num_reviews st
         + Z.of_nat (length (review_ids st')) - Z.of_nat (length (review_ids st)).
Proof.
  revert st w. induction l as [|r l IH]; intros st w.
  - exists w, st. simpl. split; [reflexivity|].
    split; [|lia].
    destruct (cap =? -1); [|rewrite take_nil]; rewrite app_nil_r; reflexivity.
  - simpl. rewrite run_bind.
    destruct (examine_selection handler cap r st w) as [w1 ->].
    destruct (IH (if selecting cap st && passes handler r
                  then Selection (num_reviews st + 1)
                         (review_ids st ++ [PyStr.str_int (review_id r)])
                  else st) w1) as (w' & st' & -> & Hids & Hnum).
    exists w', st'. split; [reflexivity|].
    rewrite Hnum, Hids. clear Hnum Hids IH.
    destruct (passes handler r) eqn:Hp.
    + rewrite filter_cons_True by exact Hp. simpl map.
      unfold selecting. destruct (cap =? -1) eqn:Hcap; simpl.
      * rewrite <- app_assoc. simpl. split; [reflexivity|].
        rewrite !length_app. simpl. lia.
      * destruct (num_reviews st <? cap) eqn:Hlt; simpl.
        -- apply Z.ltb_lt in Hlt.
           replace (Z.to_nat (cap - num_reviews st))
             with (S (Z.to_nat (cap - (num_reviews st + 1)))) by lia.
           simpl. rewrite <- app_assoc. simpl. split; [reflexivity|].
           rewrite !length_app. simpl. lia.
        -- apply Z.ltb_ge in Hlt.
           replace (Z.to_nat (cap - num_reviews st)) with 0%nat by lia.
           simpl. split; [reflexivity|]. lia.
    + rewrite filter_cons_False by (rewrite Hp; discriminate).
      rewrite andb_false_r. split; [reflexivity|]. lia.
Qed.

Lemma select_run handler cap fetched w :
  exists w' n,
    select handler cap fetched w
    = (w', inr (Selection n (truncate cap (qualifying handler fetched))))
    /\ n = Z.of_nat (length (truncate cap (qualifying handler fetched))).
Proof.
  unfold select, truncate, qualifying.
  destruct (for_each_selection handler cap (rev fetched) (Selection 0 []) w)
    as (w' & [n ids] & -> & Hids & Hnum).
  simpl in *. rewrite Z.sub_0_r in Hids. subst ids.
  exists w', n. split; [reflexivity|]. lia.
Qed.


(** What an iteration leaves alone, and what it can only extend. *)
Lemma comments_record c w :
  comments (record c w)
  = (comments w ++ match comment_of c with
                   | Some posted => [posted]
                   | None => []
                   end)%list.
Proof.
  unfold comments, record. simpl. rewrite omap_app. simpl.
  destruct (comment_of c); reflexivity.
Qed.

Lemma fetches_record c w :
  fetches (record c w)
  = (fetches w ++ match fetch_of c with
                  | Some url => [url]
                  | None => []
                  end)%list.
Proof.
  unfold fetches, record. simpl. rewrite omap_app. simpl.
  destruct (fetch_of c); reflexivity.
Qed.

Ltac solve_frame :=
  repeat split; try reflexivity;
  unfold fetches; simpl; rewrite ?omap_app; simpl; rewrite ?app_nil_r;
  reflexivity.

Lemma examine_frame handler cap r st w :
  let w' := (examine handler cap r st w).1 in
  files w' = files w /\ gearman w' = gearman w /\ uuids w' = uuids w
  /\ fetches w' = fetches w.
Proof.
  unfold examine. destruct ((cap =? -1) || (num_reviews st <? cap)); simpl;
    [|repeat split; reflexivity].
  unfold try_except, call_needs_verification, call_get_review_ids,
    call_post_review, print.
  rewrite !run_bind. simpl.
  destruct (needs_verification handler r) as [[a|t]|[|]]; simpl;
    try solve_frame.
  destruct (get_review_ids handler r) as [[a|t]|ids]; simpl; solve_frame.
Qed.

Lemma for_each_frame handler cap l st w :
  let w' := (for_each l (examine handler cap) st w).1 in
  files w' = files w /\ gearman w' = gearman w /\ uuids w' = uuids w
  /\ fetches w' = fetches w.
Proof.
  revert st w. induction l as [|r l IH]; intros st w; simpl.
  - repeat split; reflexivity.
  - rewrite run_bind.
    pose proof (examine_frame handler cap r st w) as Hr.
    destruct (examine_selection handler cap r st w) as [w1 E].
    rewrite E in Hr |- *. simpl in Hr.
    destruct Hr as (Hf & Hg & Hu & Ha).
    destruct (IH (if selecting cap st && passes handler r
                  then Selection (num_reviews st + 1)
                         (review_ids st ++ [PyStr.str_int (review_id r)])
                  else st) w1) as (Hf' & Hg' & Hu' & Ha').
    rewrite Hf', Hg', Hu', Ha'. repeat split; assumption.
Qed.

(** *** Running main and verify_reviews *)

Lemma main_bad_query parameters err w :
  json_loads (query parameters) = inl err ->
  main parameters w = (started w, inl err).
Proof.
  intros E. unfold main. rewrite !run_bind. simpl. unfold lift. rewrite E.
  reflexivity.
Qed.

Lemma main_run parameters decoded encoded w :
  json_loads (query parameters) = inr decoded ->
  urlencode decoded = inr encoded ->
  main parameters w
  = let handler := ReviewBoardHandler (user parameters) (password parameters) in
    match select handler (reviews parameters)
                 (api handler (listing_url encoded))
                 (record (Api (listing_url encoded)) (started w)) with
    | (w1, inr chosen) => verify_reviews (review_ids chosen) parameters w1
    | (w1, inl err) => (w1, inl err)
    end.
Proof.
  intros E1 E2. unfold main. rewrite !run_bind. simpl. unfold lift.
  rewrite E1. rewrite !run_bind. rewrite E2. reflexivity.
Qed.

Lemma verify_reviews_file ids parameters out_file w :
  subcommand parameters = FilePlugin out_file ->
  verify_reviews ids parameters w
  = (World (stdout w ++ [announce (length ids)])
           (<[out_file := PyStr.join LF ids]> (files w))
           (tracker w) (gearman w) (uuids w), inr tt).
Proof.
  intros Hplug. unfold verify_reviews. rewrite Hplug, run_bind. reflexivity.
Qed.

Lemma verify_reviews_none parameters servers job_name params w :
  subcommand parameters = GearmanPlugin servers job_name params ->
  verify_reviews [] parameters w
  = (World (stdout w ++ [announce 0]) (files w) (tracker w) (gearman w)
           (uuids w), inr tt).
Proof.
  intros Hplug. unfold verify_reviews. rewrite Hplug, run_bind. reflexivity.
Qed.

Lemma verify_reviews_jobs ids parameters servers job_name params extra w :
  subcommand parameters = GearmanPlugin servers job_name params ->
  params_mapping params extra ->
  ids <> [] ->
  verify_reviews ids parameters w
  = (World (stdout w ++ announce (length ids) :: map preparing ids)
           (files w) (tracker w)
           (gearman w
            ++ [(normalize_servers servers,
                 job_descriptors (uuids w) ("build:" ++ job_name) extra ids)])
           (uuids w + length ids)%nat, inr tt).
Proof.
  intros Hplug Hp Hne. unfold verify_reviews. rewrite Hplug, run_bind. simpl.
  destruct ids as [|review_id rest]; [congruence|].
  cbn [length Nat.eqb]. rewrite run_bind.
  rewrite (prepare_jobs_run _ _ _ _ _ _ Hp). simpl.
  rewrite <- app_assoc. reflexivity.
Qed.

Lemma verify_reviews_bad_params ids parameters servers job_name text err w :
  subcommand parameters = GearmanPlugin servers job_name (Some text) ->
  json_loads text = inl err ->
  ids <> [] ->
  verify_reviews ids parameters w
  = (World (stdout w ++ [announce (length ids); preparing (hd "" ids)])
           (files w) (tracker w) (gearman w) (uuids w), inl err).
Proof.
  intros Hplug E Hne. unfold verify_reviews. rewrite Hplug, run_bind. simpl.
  destruct ids as [|review_id rest]; [congruence|].
  cbn [length Nat.eqb]. rewrite run_bind. simpl.
  unfold prepare_job. rewrite !run_bind. simpl. unfold lift. rewrite E.
  simpl. rewrite <- app_assoc. reflexivity.
Qed.


(** *** The claims on the selection *)

(** C1: for every handler, cap and fetched list the loop of [main]
    returns, and the selected identifiers are those of the fetched
    reviews that pass (needs-verification true, chain resolved without
    error), oldest first, cut at the cap. When the query is accepted,
    [main] hands exactly that list to [verify_reviews]: the file
    plug-in writes it to the output file, and the Gearman plug-in
    submits one job per identifier (none when the list is empty). *)
Theorem dispatched_identifiers parameters decoded encoded w :
  json_loads (query parameters) = inr decoded ->
  urlencode decoded = inr encoded ->
  let handler := ReviewBoardHandler (user parameters) (password parameters) in
  let fetched := api handler (listing_url encoded) in
  let ids := truncate (reviews parameters) (qualifying handler fetched) in
  (forall handler0 cap0 fetched0 w0,
      exists w1,
        select handler0 cap0 fetched0 w0
        = (w1, inr (Selection
                      (Z.of_nat (length (truncate cap0
                                           (qualifying handler0 fetched0))))
                      (truncate cap0 (qualifying handler0 fetched0)))))
  /\ (exists w1, main parameters w = verify_reviews ids parameters w1)
  /\ (forall out_file,
         subcommand parameters = FilePlugin out_file ->
         exists w',
           main parameters w = (w', inr tt)
           /\ files w' = <[out_file := PyStr.join LF ids]> (files w))
  /\ (forall servers job_name params extra,
         subcommand parameters = GearmanPlugin servers job_name params ->
         params_mapping params extra ->
         exists w',
           main parameters w = (w', inr tt)
           /\ gearman w'
              = (gearman w
                 ++ match ids with
                    | [] => []
                    | _ => [(normalize_servers servers,
                             job_descriptors (uuids w) ("build:" ++ job_name)
                                             extra ids)]
                    end)%list).
Proof.
  intros E1 E2 handler fetched ids.
  assert (Hsel : forall handler0 cap0 fetched0 w0,
             exists w1,
               select handler0 cap0 fetched0 w0
               = (w1, inr (Selection
                             (Z.of_nat (length (truncate cap0
                                           (qualifying handler0 fetched0))))
                             (truncate cap0 (qualifying handler0 fetched0))))).
  { intros handler0 cap0 fetched0 w0.
    destruct (select_run handler0 cap0 fetched0 w0) as (w1 & n & E & ->).
    exists w1. exact E. }
  split; [exact Hsel|].
  pose proof (main_run parameters decoded encoded w E1 E2) as Hmain.
  cbv zeta in Hmain. fold handler fetched in Hmain.
  pose proof (for_each_frame handler (reviews parameters) (rev fetched)
                (Selection 0 [])
                (record (Api (listing_url encoded)) (started w))) as Hframe.
  fold (select handler (reviews parameters) fetched) in Hframe.
  destruct (Hsel handler (reviews parameters) fetched
              (record (Api (listing_url encoded)) (started w))) as [w1 E].
  fold ids in E. rewrite E in Hmain, Hframe. simpl in Hmain, Hframe.
  destruct Hframe as (Hf & Hg & Hu & _).
  split; [exists w1; exact Hmain|]. split.
  - intros out_file Hplug. rewrite Hmain, (verify_reviews_file _ _ _ _ Hplug).
    eexists. split; [reflexivity|]. simpl. rewrite Hf. reflexivity.
  - intros servers job_name params extra Hplug Hp. rewrite Hmain.
    destruct ids as [|review_id rest] eqn:Hids.
    + rewrite (verify_reviews_none _ _ _ _ _ Hplug).
      eexists. split; [reflexivity|]. simpl. rewrite app_nil_r. exact Hg.
    + rewrite (verify_reviews_jobs _ _ _ _ _ _ _ Hplug Hp) by discriminate.
      eexists. split; [reflexivity|]. simpl. rewrite Hg, Hu. reflexivity.
Qed.

(** C3: a cap of -1 selects every review that passes; a cap of 0
    selects none and examines none; a cap k > 0 selects at most k; and
    once the count has reached the cap after the older reviews, the
    newer ones are neither examined nor selected. *)
Theorem cap_semantics handler fetched w :
  (exists w',
      select handler (-1) fetched w
      = (w', inr (Selection (Z.of_nat (length (qualifying handler fetched)))
                            (qualifying handler fetched))))
  /\ select handler 0 fetched w = (w, inr (Selection 0 []))
  /\ (forall k, 0 < k ->
        exists w' chosen,
          select handler k fetched w = (w', inr chosen)
          /\ Z.of_nat (length (review_ids chosen)) <= k
          /\ num_reviews chosen = Z.of_nat (length (review_ids chosen)))
  /\ (forall k older newer w1 reached,
        0 <= k ->
        for_each older (examine handler k) (Selection 0 []) w = (w1, inr reached) ->
        num_reviews reached = k ->
        for_each (older ++ newer) (examine handler k) (Selection 0 []) w
        = (w1, inr reached)).
Proof.
  split; [|split; [|split]].
  - destruct (select_run handler (-1) fetched w) as (w' & n & E & ->).
    exists w'. exact E.
  - apply for_each_closed. reflexivity.
  - intros k Hk.
    destruct (select_run handler k fetched w) as (w' & n & E & ->).
    eexists _, _. split; [exact E|]. simpl. split; [|reflexivity].
    unfold truncate. destruct (k =? -1) eqn:Hk1; [apply Z.eqb_eq in Hk1; lia|].
    rewrite length_take. lia.
  - intros k older newer w1 reached Hk Hrun Hnum.
    rewrite for_each_app, Hrun. apply for_each_closed.
    apply selecting_closed; lia.
Qed.

(** C10: a cap below -1 selects nothing and examines nothing; the run
    then dispatches nothing: the Gearman plug-in submits no job and the
    file plug-in writes an empty file. *)
Theorem negative_cap_selects_nothing parameters decoded encoded w :
  reviews parameters < -1 ->
  json_loads (query parameters) = inr decoded ->
  urlencode decoded = inr encoded ->
  (forall handler fetched w0,
      select handler (reviews parameters) fetched w0
      = (w0, inr (Selection 0 [])))
  /\ main parameters w
     = verify_reviews [] parameters
         (record (Api (listing_url encoded)) (started w))
  /\ exists w',
      main parameters w = (w', inr tt)
      /\ gearman w' = gearman w
      /\ comments w' = comments w
      /\ files w'
         = match subcommand parameters with
           | FilePlugin out_file => <[out_file := ""]> (files w)
           | GearmanPlugin _ _ _ => files w
           end.
Proof.
  intros Hcap E1 E2.
  assert (Hsel : forall handler fetched w0,
             select handler (reviews parameters) fetched w0
             = (w0, inr (Selection 0 []))).
  { intros handler fetched w0. apply for_each_closed.
    apply selecting_closed; simpl; lia. }
  split; [exact Hsel|].
  rewrite (main_run parameters decoded encoded w E1 E2). cbv zeta.
  rewrite Hsel. simpl review_ids. split; [reflexivity|].
  destruct (subcommand parameters) as [out_file|servers job_name params] eqn:Hplug.
  - rewrite (verify_reviews_file _ _ _ _ Hplug). eexists.
    split; [reflexivity|]. simpl. split; [reflexivity|].
    split; [|reflexivity].
    unfold comments. simpl. rewrite omap_app. simpl. apply app_nil_r.
  - rewrite (verify_reviews_none _ _ _ _ _ Hplug). eexists.
    split; [reflexivity|]. simpl. split; [reflexivity|].
    split; [|reflexivity].
    unfold comments. simpl. rewrite omap_app. simpl. apply app_nil_r.
Qed.


Lemma in_take_in {A} (x : A) n (l : list A) : In x (take n l) -> In x l.
Proof.
  revert n. induction l as [|y l IH]; intros [|n]; simpl; try tauto.
  intros [->|Hin]; [left; reflexivity|right; exact (IH n Hin)].
Qed.

Lemma selected_passes handler cap fetched x :
  In x (truncate cap (qualifying handler fetched)) ->
  exists r,
    In r fetched /\ passes handler r = true /\ x = PyStr.str_int (review_id r).
Proof.
  intros Hin.
  assert (Hq : In x (qualifying handler fetched)).
  { unfold truncate in Hin. destruct (cap =? -1); [exact Hin|].
    exact (in_take_in _ _ _ Hin). }
  unfold qualifying in Hq. apply in_map_iff in Hq as (r & <- & Hr).
  apply list_elem_of_In, list_elem_of_filter in Hr as [Hp Hr].
  apply list_elem_of_In, in_rev in Hr.
  exists r. auto.
Qed.

Lemma raises_not_passes handler r err :
  resolution_raises handler r err -> passes handler r = false.
Proof.
  unfold resolution_raises, passes. intros [->|[-> ->]]; reflexivity.
Qed.

(** C4: the iteration that examines a review whose resolution raises
    the cyclic-dependency error posts exactly one comment, addressed to
    that review and carrying the text of the error; it prints nothing
    and leaves the selection as it was, so neither the identifier list
    nor the count compared with the cap changes. When identifiers
    identify the fetched reviews, the identifier of such a review is in
    no selection, whatever the cap. *)
Theorem cyclic_review_commented handler cap r st w arg0 :
  cap_open cap st ->
  resolution_raises handler r (ReviewError arg0) ->
  (exists w',
      examine handler cap r st w = (w', inr st)
      /\ comments w' = (comments w ++ [(r, bad_review_message arg0)])%list
      /\ stdout w' = stdout w
      /\ files w' = files w
      /\ gearman w' = gearman w)
  /\ (forall cap' fetched w0 w1 chosen,
         (forall r', In r' fetched -> review_id r' = review_id r -> r' = r) ->
         select handler cap' fetched w0 = (w1, inr chosen) ->
         ~ In (PyStr.str_int (review_id r)) (review_ids chosen)).
Proof.
  intros Hopen Hraise. split.
  - apply selecting_open in Hopen. unfold examine.
    fold (selecting cap st). rewrite Hopen.
    unfold try_except, call_needs_verification, call_get_review_ids,
      call_post_review, print.
    rewrite !run_bind. simpl.
    destruct Hraise as [->|[-> ->]]; simpl;
      (eexists; split; [reflexivity|]);
      rewrite !comments_record; simpl; rewrite ?app_nil_r;
      repeat split; reflexivity.
  - intros cap' fetched w0 w1 chosen Huniq Hsel Hin.
    destruct (select_run handler cap' fetched w0) as (w' & n & E & _).
    rewrite E in Hsel. inversion Hsel; subst chosen. simpl in Hin.
    apply selected_passes in Hin as (r' & Hr' & Hp & Hid).
    apply (inj pretty) in Hid. symmetry in Hid.
    apply (Huniq r' Hr') in Hid. subst r'.
    rewrite (raises_not_passes _ _ _ Hraise) in Hp. discriminate.
Qed.

(** C5: the iteration that examines a review whose status check or
    chain resolution raises another error prints the two warning
    lines, posts nothing, leaves the selection as it was and returns;
    the loop then goes on with the remaining reviews. *)
Theorem other_error_skipped handler cap r rest st w text :
  cap_open cap st ->
  resolution_raises handler r (Exception text) ->
  exists w',
    examine handler cap r st w = (w', inr st)
    /\ stdout w' = (stdout w ++ warning_lines r text)%list
    /\ comments w' = comments w
    /\ files w' = files w
    /\ gearman w' = gearman w
    /\ passes handler r = false
    /\ for_each (r :: rest) (examine handler cap) st w
       = for_each rest (examine handler cap) st w'.
Proof.
  intros Hopen Hraise.
  pose proof (raises_not_passes _ _ _ Hraise) as Hp.
  apply selecting_open in Hopen.
  assert (Hrun : exists w',
             examine handler cap r st w = (w', inr st)
             /\ stdout w' = (stdout w ++ warning_lines r text)%list
             /\ comments w' = comments w
             /\ files w' = files w
             /\ gearman w' = gearman w).
  { unfold examine. fold (selecting cap st). rewrite Hopen.
    unfold try_except, call_needs_verification, call_get_review_ids,
      call_post_review, print.
    rewrite !run_bind. simpl.
    destruct Hraise as [->|[-> ->]]; simpl;
      (eexists; split; [reflexivity|]); simpl;
      (split; [rewrite <- app_assoc; reflexivity|]);
      (split; [unfold comments; simpl; rewrite ?omap_app; simpl;
               rewrite ?app_nil_r; reflexivity|]);
      split; reflexivity. }
  destruct Hrun as (w' & E & Hout & Hcom & Hf & Hg).
  exists w'. repeat (split; [assumption|]).
  simpl. rewrite run_bind, E. reflexivity.
Qed.


(** *** Malformed JSON on the command line *)

(** C2, amended: a --query text that is not valid JSON makes the run
    fail at startup, before any fetch, comment or dispatch. A --params
    text that is not valid JSON is only read when the first job
    descriptor is built: by then the reviews are fetched and examined
    and the comments of the selection loop are posted; the run then
    fails without submitting a job, and it does not fail at all when
    no review is selected. *)
Theorem malformed_json_failures parameters w :
  (forall err,
      json_loads (query parameters) = inl err ->
      main parameters w = (started w, inl err)
      /\ fails_at_startup parameters w)
  /\ (forall servers job_name text err decoded encoded,
         subcommand parameters = GearmanPlugin servers job_name (Some text) ->
         json_loads text = inl err ->
         json_loads (query parameters) = inr decoded ->
         urlencode decoded = inr encoded ->
         let handler :=
           ReviewBoardHandler (user parameters) (password parameters) in
         let fetched := api handler (listing_url encoded) in
         let ids := truncate (reviews parameters) (qualifying handler fetched) in
         exists w1 w',
           select handler (reviews parameters) fetched
                  (record (Api (listing_url encoded)) (started w))
           = (w1, inr (Selection (Z.of_nat (length ids)) ids))
           /\ main parameters w
              = (w', match ids with
                     | [] => inr tt
                     | _ => inl err
                     end)
           /\ tracker w' = tracker w1
           /\ fetches w' = (fetches w ++ [listing_url encoded])%list
           /\ gearman w' = gearman w
           /\ files w' = files w).
Proof.
  split.
  - intros err E. pose proof (main_bad_query parameters err w E) as Hmain.
    split; [exact Hmain|].
    exists err, (started w). repeat split; [exact Hmain|..]; reflexivity.
  - intros servers job_name text err decoded encoded Hplug Etext E1 E2
      handler fetched ids.
    pose proof (main_run parameters decoded encoded w E1 E2) as Hmain.
    cbv zeta in Hmain. fold handler fetched in Hmain.
    pose proof (for_each_frame handler (reviews parameters) (rev fetched)
                  (Selection 0 [])
                  (record (Api (listing_url encoded)) (started w))) as Hframe.
    fold (select handler (reviews parameters) fetched) in Hframe.
    destruct (select_run handler (reviews parameters) fetched
                (record (Api (listing_url encoded)) (started w)))
      as (w1 & n & E & ->).
    fold ids in E. rewrite E in Hmain, Hframe. simpl in Hmain, Hframe.
    destruct Hframe as (Hf & Hg & Hu & Ha).
    rewrite fetches_record in Ha. simpl in Ha.
    exists w1. destruct ids as [|review_id rest] eqn:Hids.
    + rewrite (verify_reviews_none _ _ _ _ _ Hplug) in Hmain.
      eexists. split; [exact E|]. split; [exact Hmain|]. simpl.
      repeat split; assumption.
    + rewrite (verify_reviews_bad_params _ _ _ _ _ _ _ Hplug Etext) in Hmain
        by discriminate.
      eexists. split; [exact E|]. split; [exact Hmain|]. simpl.
      repeat split; assumption.
Qed.

End Properties.

(** ** Further properties: strings and servers *)

Lemma join_split sep s :
  PyStr.join (String sep EmptyString) (PyStr.split sep s) = s.
Proof.
  induction s as [|c s IH]; simpl; [reflexivity|].
  pose proof (split_nonempty sep s) as Hne.
  destruct (Ascii.eqb c sep) eqn:E.
  - apply Ascii.eqb_eq in E. subst c.
    destruct (PyStr.split sep s) as [|f fs]; [congruence|].
    change (String sep (PyStr.join (String sep EmptyString) (f :: fs))
            = String sep s).
    rewrite IH. reflexivity.
  - destruct (PyStr.split sep s) as [|f fs]; [congruence|].
    destruct fs as [|g gs]; simpl in *; rewrite <- IH; reflexivity.
Qed.

Lemma split_join sep ids :
  ids <> [] ->
  Forall (fun field => PyStr.contains sep field = false) ids ->
  PyStr.split sep (PyStr.join (String sep EmptyString) ids) = ids.
Proof.
  induction ids as [|x ids IH]; [congruence|]. intros _ Hfree.
  inversion Hfree as [|? ? Hx Hrest]; subst.
  destruct ids as [|y ids].
  - simpl. apply split_absent. exact Hx.
  - change (PyStr.join (String sep EmptyString) (x :: y :: ids))
      with (x ++ String sep (PyStr.join (String sep EmptyString) (y :: ids))).
    rewrite (split_at_sep _ _ _ Hx), IH; [reflexivity|discriminate|exact Hrest].
Qed.

Lemma length_split sep s :
  length (PyStr.split sep s) = S (PyMore.count sep s).
Proof.
  induction s as [|c s IH]; simpl; [reflexivity|].
  destruct (Ascii.eqb c sep); simpl; [rewrite IH; reflexivity|].
  destruct (PyStr.split sep s); simpl in *; lia.
Qed.

Lemma rstrip_cons c rest :
  PyStr.rstrip (String c rest)
  = match PyStr.rstrip rest with
    | EmptyString =>
        if PyStr.is_space c then EmptyString else String c EmptyString
    | kept => String c kept
    end.
Proof. reflexivity. Qed.

Lemma rstrip_idem s : PyStr.rstrip (PyStr.rstrip s) = PyStr.rstrip s.
Proof.
  induction s as [|c s IH]; [reflexivity|].
  rewrite rstrip_cons. destruct (PyStr.rstrip s) as [|d kept] eqn:E.
  - destruct (PyStr.is_space c) eqn:Hc; [reflexivity|].
    rewrite rstrip_cons. simpl. rewrite Hc. reflexivity.
  - rewrite rstrip_cons, IH. reflexivity.
Qed.

Lemma rstrip_app_keep s t :
  PyStr.rstrip t <> EmptyString ->
  PyStr.rstrip (s ++ t) = s ++ PyStr.rstrip t.
Proof.
  intros Hkeep. induction s as [|c s IH]; [reflexivity|].
  change (String c s ++ t) with (String c (s ++ t)).
  rewrite rstrip_cons, IH.
  change (String c s ++ PyStr.rstrip t) with (String c (s ++ PyStr.rstrip t)).
  destruct (s ++ PyStr.rstrip t) eqn:E; [|reflexivity].
  destruct s; [exfalso; exact (Hkeep E) | discriminate E].
Qed.

Lemma lstrip_clean s : PyMore.starts_clean (PyStr.lstrip s).
Proof.
  induction s as [|c s IH]; simpl; [exact I|].
  destruct (PyStr.is_space c) eqn:Hc; [exact IH | exact Hc].
Qed.

Lemma lstrip_fixed s : PyMore.starts_clean s -> PyStr.lstrip s = s.
Proof. destruct s as [|c s]; simpl; [reflexivity|]. intros ->. reflexivity. Qed.

Lemma rstrip_clean s :
  PyMore.starts_clean s -> PyMore.starts_clean (PyStr.rstrip s).
Proof.
  destruct s as [|c s]; [intros; exact I|]. intros Hc. rewrite rstrip_cons.
  simpl in Hc. destruct (PyStr.rstrip s); [rewrite Hc|]; exact Hc.
Qed.

Lemma strip_clean s : PyMore.starts_clean (PyStr.strip s).
Proof. apply rstrip_clean, lstrip_clean. Qed.

Lemma strip_fixed t :
  PyMore.starts_clean t -> PyStr.rstrip t = t -> PyStr.strip t = t.
Proof. intros Hc Hr. unfold PyStr.strip. rewrite (lstrip_fixed _ Hc). exact Hr. Qed.

Lemma strip_idem s : PyStr.strip (PyStr.strip s) = PyStr.strip s.
Proof.
  apply strip_fixed; [apply strip_clean|]. unfold PyStr.strip. apply rstrip_idem.
Qed.

Lemma strip_blank s :
  PyMore.all_chars PyStr.is_space s = true -> PyStr.strip s = EmptyString.
Proof.
  unfold PyStr.strip. induction s as [|c s IH]; simpl; [reflexivity|].
  intros Hall. apply andb_prop in Hall as [Hc Hs]. rewrite Hc. exact (IH Hs).
Qed.

Lemma hd_split_clean sep t :
  PyMore.starts_clean t ->
  PyMore.starts_clean (hd EmptyString (PyStr.split sep t)).
Proof.
  destruct t as [|c t]; simpl; [intros; exact I|]. intros Hc.
  destruct (Ascii.eqb c sep); simpl; [exact I|].
  destruct (PyStr.split sep t); exact Hc.
Qed.

Lemma normalize_canonical a p :
  PyMore.starts_clean a ->
  PyStr.contains ":" a = false ->
  PyStr.contains ":" p = false ->
  PyStr.rstrip (a ++ String ":" p) = a ++ String ":" p ->
  normalize_server (a ++ String ":" p) = a ++ ":" ++ p.
Proof.
  intros Hclean Ha Hp Hr. unfold normalize_server.
  rewrite strip_fixed; [|destruct a; [reflexivity | exact Hclean] | exact Hr].
  rewrite (split_at_sep _ _ _ Ha), (split_absent _ _ Hp). reflexivity.
Qed.

Lemma normalize_server_fixed server :
  normalize_server (normalize_server server) = normalize_server server.
Proof.
  unfold normalize_server at 2 3.
  pose proof (hd_split_clean ":" _ (strip_clean server)) as Hclean.
  pose proof (split_fields_free ":" (PyStr.strip server)) as Hfree.
  pose proof (join_split ":" (PyStr.strip server)) as Hjoin.
  pose proof (split_nonempty ":" (PyStr.strip server)) as Hne.
  assert (Hdefault : forall a, PyMore.starts_clean a ->
                               PyStr.contains ":" a = false ->
                               normalize_server (a ++ ":" ++ "4730")
                               = a ++ ":" ++ "4730").
  { intros a Hc Ha.
    apply (normalize_canonical a "4730"); [exact Hc|exact Ha|reflexivity|].
    apply rstrip_app_keep. discriminate. }
  destruct (PyStr.split ":" (PyStr.strip server)) as [|a [|p [|q rest]]];
    [congruence| | |]; simpl in Hclean; inversion Hfree as [|? ? Ha Hrest]; subst.
  - apply (Hdefault a Hclean Ha).
  - inversion Hrest as [|? ? Hp _]; subst.
    assert (E : a ++ String ":" p = PyStr.strip server) by exact Hjoin.
    apply (normalize_canonical a p); [exact Hclean|exact Ha|exact Hp|].
    rewrite E. unfold PyStr.strip. apply rstrip_idem.
  - apply (Hdefault a Hclean Ha).
Qed.

(** X1: normalising a server entry twice gives the same text as
    normalising it once. *)
Theorem normalize_server_idempotent server :
  normalize_server (normalize_server server) = normalize_server server.
Proof. exact (normalize_server_fixed server). Qed.

(** X2: the normalised list has one entry per comma-separated field of
    --servers, blank fields included: a field of white space only
    becomes ":4730", so an empty --servers gives the single entry
    ":4730". *)
Theorem blank_servers_kept :
  (forall servers,
      length (normalize_servers servers) = S (PyMore.count "," servers))
  /\ (forall server,
         PyMore.all_chars PyStr.is_space server = true ->
         normalize_server server = ":4730")
  /\ normalize_servers "" = [":4730"].
Proof.
  split; [|split].
  - intros servers. unfold normalize_servers.
    rewrite length_map. apply length_split.
  - intros server Hall. unfold normalize_server.
    rewrite (strip_blank _ Hall). reflexivity.
  - reflexivity.
Qed.

(** X3: an entry with two or more colons keeps only its first field and
    gets the default port; the fields after the first colon are
    dropped. *)
Theorem extra_fields_dropped server a b c :
  PyStr.strip server = a ++ ":" ++ b ++ ":" ++ c ->
  PyStr.contains ":" a = false ->
  PyStr.contains ":" b = false ->
  normalize_server server = a ++ ":4730".
Proof.
  intros E Ha Hb. unfold normalize_server. rewrite E.
  change (a ++ ":" ++ b ++ ":" ++ c) with (a ++ String ":" (b ++ String ":" c)).
  rewrite (split_at_sep _ _ _ Ha), (split_at_sep _ _ _ Hb).
  pose proof (split_nonempty ":" c) as Hne.
  destruct (PyStr.split ":" c); [congruence|]. reflexivity.
Qed.

Lemma contains_app c a b :
  PyStr.contains c (a ++ b) = PyStr.contains c a || PyStr.contains c b.
Proof.
  induction a as [|d a IH]; [reflexivity|].
  change (String d a ++ b) with (String d (a ++ b)). simpl.
  rewrite IH, orb_assoc. reflexivity.
Qed.

Lemma lstrip_free c s :
  PyStr.contains c s = false -> PyStr.contains c (PyStr.lstrip s) = false.
Proof.
  induction s as [|d s IH]; [reflexivity|]. intros Hfree. simpl.
  destruct (PyStr.is_space d); [|exact Hfree].
  simpl in Hfree. apply orb_false_elim in Hfree as [_ Hs]. exact (IH Hs).
Qed.

Lemma rstrip_free c s :
  PyStr.contains c s = false -> PyStr.contains c (PyStr.rstrip s) = false.
Proof.
  induction s as [|d s IH]; [reflexivity|]. intros Hfree.
  simpl in Hfree. apply orb_false_elim in Hfree as [Hd Hs].
  specialize (IH Hs). rewrite rstrip_cons.
  destruct (PyStr.rstrip s) as [|e kept].
  - destruct (PyStr.is_space d); [reflexivity|]. simpl. rewrite Hd. reflexivity.
  - change (PyStr.contains c (String d (String e kept)))
      with (Ascii.eqb d c || PyStr.contains c (String e kept)).
    rewrite Hd, IH. reflexivity.
Qed.

Lemma split_free_fields c sep s :
  PyStr.contains c s = false ->
  Forall (fun field => PyStr.contains c field = false) (PyStr.split sep s).
Proof.
  induction s as [|d s IH]; intros Hfree; simpl.
  - repeat constructor.
  - simpl in Hfree. apply orb_false_elim in Hfree as [Hd Hs].
    specialize (IH Hs). destruct (Ascii.eqb d sep).
    + constructor; [reflexivity | exact IH].
    + destruct (PyStr.split sep s) as [|f fs].
      * repeat constructor. simpl. rewrite Hd. reflexivity.
      * inversion IH; subst. constructor; [|assumption].
        simpl. rewrite Hd. assumption.
Qed.

Lemma normalize_server_free c server :
  PyStr.contains c server = false ->
  PyStr.contains c ":4730" = false ->
  PyStr.contains c (normalize_server server) = false.
Proof.
  intros Hfree Hc. unfold normalize_server.
  assert (Hstrip : PyStr.contains c (PyStr.strip server) = false)
    by (apply rstrip_free, lstrip_free; exact Hfree).
  pose proof (split_free_fields c ":" _ Hstrip) as Hfields.
  destruct (PyStr.split ":" (PyStr.strip server)) as [|a [|p [|q rest]]].
  - exact Hc.
  - inversion Hfields; subst. rewrite contains_app.
    apply orb_false_intro; assumption.
  - inversion Hfields as [|? ? Ha Hrest]; subst.
    inversion Hrest as [|? ? Hp _]; subst.
    simpl hd. cbn [length Nat.eqb nth PyStr.str].
    rewrite contains_app. apply orb_false_intro; [exact Ha|].
    change (":" ++ p) with (String ":" p).
    simpl in Hc |- *. apply orb_false_elim in Hc as [Hcolon _].
    rewrite Hcolon, Hp. reflexivity.
  - inversion Hfields; subst. rewrite contains_app.
    apply orb_false_intro; assumption.
Qed.

(** X17: the normalised entries joined with commas form a --servers
    text that normalises to the same list. *)
Theorem normalized_servers_round_trip servers :
  normalize_servers (PyStr.join "," (normalize_servers servers))
  = normalize_servers servers.
Proof.
  unfold normalize_servers at 1.
  rewrite (split_join "," (normalize_servers servers)).
  - unfold normalize_servers. rewrite map_map. apply map_ext.
    intros server. apply normalize_server_fixed.
  - unfold normalize_servers. pose proof (split_nonempty "," servers).
    destruct (PyStr.split "," servers); [congruence | discriminate].
  - unfold normalize_servers. apply List.Forall_map.
    eapply List.Forall_impl; [|apply (split_fields_free "," servers)].
    intros field Hfield. apply normalize_server_free; [exact Hfield|reflexivity].
Qed.

(** ** Further properties: the query string *)

Ltac ascii_cases c := destruct c as [[] [] [] [] [] [] [] []].

Lemma replace_3A_miss c rest :
  String.prefix "%3A" (String c rest) = false ->
  PyStr.replace_3A (String c rest) = String c (PyStr.replace_3A rest).
Proof.
  intros Hmiss. ascii_cases c; try reflexivity.
  destruct rest as [|d rest]; [reflexivity|].
  ascii_cases d; try reflexivity.
  destruct rest as [|e rest]; [reflexivity|].
  ascii_cases e; try reflexivity.
  destruct rest; cbv in Hmiss; discriminate Hmiss.
Qed.

Lemma prefix_3A_hit s :
  String.prefix "%3A" s = true -> exists rest, s = "%3A" ++ rest.
Proof.
  intros Hhit. destruct s as [|c s]; [discriminate Hhit|].
  ascii_cases c; try (cbv in Hhit; discriminate Hhit).
  destruct s as [|d s]; [cbv in Hhit; discriminate Hhit|].
  ascii_cases d; try (cbv in Hhit; discriminate Hhit).
  destruct s as [|e s]; [cbv in Hhit; discriminate Hhit|].
  ascii_cases e; try (cbv in Hhit; discriminate Hhit).
  exists s. reflexivity.
Qed.

(** The first character written for a string that does not begin with
    the pattern is its own first character. *)
Lemma replace_3A_head c rest :
  String.prefix "%3A" (String c rest) = false ->
  String.prefix "%3A" (String c (PyStr.replace_3A rest)) = false.
Proof.
  intros Hmiss. ascii_cases c; try reflexivity.
  destruct rest as [|d rest]; [reflexivity|].
  ascii_cases d; try reflexivity.
  - destruct rest as [|e rest]; [reflexivity|].
    ascii_cases e; try reflexivity;
      try (destruct rest; cbv in Hmiss; discriminate Hmiss).
    destruct rest as [|f rest]; [reflexivity|].
    ascii_cases f; try reflexivity.
    destruct rest as [|g rest]; [reflexivity|].
    ascii_cases g; reflexivity.
  - destruct rest as [|e rest]; [reflexivity|].
    ascii_cases e; try reflexivity.
    destruct rest as [|f rest]; [reflexivity|].
    ascii_cases f; reflexivity.
Qed.

Lemma replace_3A_clears n :
  forall s, (String.length s <= n)%nat ->
            PyMore.occurs "%3A" (PyStr.replace_3A s) = false.
Proof.
  induction n as [|n IH]; intros s Hlen.
  - destruct s; [reflexivity | simpl in Hlen; lia].
  - destruct s as [|c rest]; [reflexivity|].
    destruct (String.prefix "%3A" (String c rest)) eqn:Hp.
    + apply prefix_3A_hit in Hp as [rest' E]. rewrite E.
      change (PyStr.replace_3A ("%3A" ++ rest'))
        with (String ":" (PyStr.replace_3A rest')).
      change (PyMore.occurs "%3A" (String ":" (PyStr.replace_3A rest')))
        with (PyMore.occurs "%3A" (PyStr.replace_3A rest')).
      apply IH. rewrite E in Hlen.
      change (String.length ("%3A" ++ rest'))
        with (S (S (S (String.length rest')))) in Hlen.
      lia.
    + rewrite (replace_3A_miss _ _ Hp).
      change (PyMore.occurs "%3A" (String c (PyStr.replace_3A rest)))
        with (String.prefix "%3A" (String c (PyStr.replace_3A rest))
              || PyMore.occurs "%3A" (PyStr.replace_3A rest)).
      rewrite (replace_3A_head _ _ Hp). simpl.
      apply IH. simpl in Hlen. lia.
Qed.

(** X4: after [replace("%3A", ":")] the query string holds no "%3A",
    and a string without "%3A" is left as it is; so replacing twice
    changes nothing more. *)
Theorem encoded_colons_removed :
  (forall s, PyMore.occurs "%3A" (PyStr.replace_3A s) = false)
  /\ (forall s, PyMore.occurs "%3A" s = false -> PyStr.replace_3A s = s)
  /\ (forall s, PyStr.replace_3A (PyStr.replace_3A s) = PyStr.replace_3A s).
Proof.
  assert (Hclear : forall s, PyMore.occurs "%3A" (PyStr.replace_3A s) = false).
  { intros s. apply (replace_3A_clears (String.length s)). lia. }
  assert (Hkeep : forall s, PyMore.occurs "%3A" s = false ->
                            PyStr.replace_3A s = s).
  { induction s as [|c rest IH]; [reflexivity|]. intros Hocc.
    change (PyMore.occurs "%3A" (String c rest))
      with (String.prefix "%3A" (String c rest) || PyMore.occurs "%3A" rest)
      in Hocc.
    apply orb_false_elim in Hocc as [Hp Hrest].
    rewrite (replace_3A_miss _ _ Hp), (IH Hrest). reflexivity. }
  split; [exact Hclear|]. split; [exact Hkeep|].
  intros s. apply Hkeep, Hclear.
Qed.

(** X5: the default filter asks for pending reviews of repository 122
    updated since the given time, the time being cut at its first
    ".": the value holds no ".", it is the whole ISO text when that
    has no fraction, and otherwise the text is the value followed by
    "." and the fraction. *)
Theorem default_query_timestamp datetime_before_string :
  default_query datetime_before_string !! "status" = Some (JStr "pending")
  /\ default_query datetime_before_string !! "repository" = Some (JNum 122)
  /\ default_query datetime_before_string !! "last-updated-from"
     = Some (JStr (last_updated_from datetime_before_string))
  /\ dom (default_query datetime_before_string)
     = ({[ "status"; "repository"; "last-updated-from" ]} : gset string)
  /\ PyStr.contains "." (last_updated_from datetime_before_string) = false
  /\ (PyStr.contains "." datetime_before_string = false ->
      last_updated_from datetime_before_string = datetime_before_string)
  /\ (datetime_before_string = last_updated_from datetime_before_string
      \/ exists fraction,
          datetime_before_string
          = last_updated_from datetime_before_string ++ "." ++ fraction).
Proof.
  unfold default_query.
  split; [|split; [|split; [|split; [|split; [|split]]]]].
  - rewrite lookup_insert_ne by discriminate. apply lookup_insert_eq.
  - rewrite !lookup_insert_ne by discriminate. apply lookup_singleton_eq.
  - apply lookup_insert_eq.
  - rewrite !dom_insert_L, dom_singleton_L. set_solver.
  - apply hd_split_free.
  - intros Hfree. unfold last_updated_from.
    rewrite (split_absent _ _ Hfree). reflexivity.
  - unfold last_updated_from.
    pose proof (join_split "." datetime_before_string) as Hjoin.
    pose proof (split_nonempty "." datetime_before_string) as Hne.
    destruct (PyStr.split "." datetime_before_string) as [|f [|g gs]];
      [congruence| |].
    + left. symmetry. exact Hjoin.
    + right. exists (PyStr.join "." (g :: gs)). symmetry. exact Hjoin.
Qed.

(** ** Further properties: identifiers *)

Lemma pretty_N_char_digit y : PyMore.is_digit (pretty_N_char y) = true.
Proof. unfold pretty_N_char. repeat case_match; reflexivity. Qed.

Lemma pretty_N_go_numeral x s :
  PyMore.all_chars PyMore.is_numeral_char s = true ->
  PyMore.all_chars PyMore.is_numeral_char (pretty_N_go x s) = true.
Proof.
  revert s. induction (N.lt_wf_0 x) as [x _ IH]. intros s Hs.
  destruct (decide (x = 0)%N) as [->|Hx].
  - rewrite pretty_N_go_0. exact Hs.
  - rewrite pretty_N_go_step by lia. apply IH.
    + apply N.div_lt; lia.
    + simpl. rewrite Hs. unfold PyMore.is_numeral_char.
      rewrite pretty_N_char_digit. reflexivity.
Qed.

Lemma pretty_N_numeral (x : N) :
  PyMore.all_chars PyMore.is_numeral_char (pretty x) = true.
Proof.
  unfold pretty, pretty_N. destruct (decide (x = 0)%N); [reflexivity|].
  apply pretty_N_go_numeral. reflexivity.
Qed.

Lemma str_int_numeral n :
  PyMore.all_chars PyMore.is_numeral_char (PyStr.str_int n) = true.
Proof.
  unfold PyStr.str_int, pretty, pretty_Z. destruct n as [|p|p].
  - reflexivity.
  - apply (pretty_N_numeral (Npos p)).
  - change (PyMore.all_chars PyMore.is_numeral_char
              (String "-" (pretty (Npos p))) = true).
    simpl. apply (pretty_N_numeral (Npos p)).
Qed.

Lemma all_chars_excludes p c s :
  PyMore.all_chars p s = true -> p c = false -> PyStr.contains c s = false.
Proof.
  intros Hall Hc. induction s as [|d s IH]; [reflexivity|].
  simpl in *. apply andb_prop in Hall as [Hd Hs].
  rewrite (IH Hs), orb_false_r. apply Ascii.eqb_neq. intros ->. congruence.
Qed.

Lemma qualifying_numerals {review_request}
    `{Common : !CommonModule review_request}
    (handler : ReviewBoardHandler_obj review_request) cap fetched :
  Forall (fun id => PyMore.all_chars PyMore.is_numeral_char id = true)
         (truncate cap (qualifying handler fetched)).
Proof.
  apply List.Forall_forall. intros id Hin.
  apply selected_passes in Hin as (r & _ & _ & ->). apply str_int_numeral.
Qed.

Lemma NoDup_map_filter {A B} (f : A -> B) (P : A -> Prop)
    `{forall x, Decision (P x)} (l : list A) :
  List.NoDup (map f l) -> List.NoDup (map f (filter P l)).
Proof.
  induction l as [|a l IH]; simpl; [intros; constructor|].
  intros Hnd. inversion Hnd as [|? ? Hnotin Hrest]; subst.
  rewrite filter_cons. destruct (decide (P a)); [|exact (IH Hrest)].
  simpl. constructor; [|exact (IH Hrest)].
  intros Hin. apply Hnotin. apply in_map_iff in Hin as (x & Hx & Hin).
  apply in_map_iff. exists x. split; [exact Hx|].
  apply list_elem_of_In. apply list_elem_of_In, list_elem_of_filter in Hin.
  tauto.
Qed.

Lemma NoDup_map_injective {A B} (f : A -> B) (l : list A) :
  (forall x y, f x = f y -> x = y) -> List.NoDup l -> List.NoDup (map f l).
Proof.
  intros Hinj. induction l as [|a l IH]; simpl; intros Hnd; [constructor|].
  inversion Hnd as [|? ? Hnotin Hrest]; subst. constructor; [|exact (IH Hrest)].
  intros Hin. apply in_map_iff in Hin as (x & Hx & Hin).
  apply Hinj in Hx. subst x. exact (Hnotin Hin).
Qed.

Lemma NoDup_take_keeps {A} n (l : list A) :
  List.NoDup l -> List.NoDup (take n l).
Proof.
  revert n. induction l as [|a l IH]; intros [|n] Hnd; simpl; try constructor.
  - inversion Hnd as [|? ? Hnotin _]; subst.
    intros Hin. exact (Hnotin (in_take_in _ _ _ Hin)).
  - inversion Hnd; subst. apply IH. assumption.
Qed.

Section Further.
Context {review_request : Type}.
Context `{Json : !JsonModule, Rt : !Runtime, Common : !CommonModule review_request}.

Implicit Types (w : world review_request) (st : selection).
Implicit Types (handler : ReviewBoardHandler_obj review_request).

Lemma main_file_run parameters decoded encoded out_file w :
  json_loads (query parameters) = inr decoded ->
  urlencode decoded = inr encoded ->
  subcommand parameters = FilePlugin out_file ->
  let handler := ReviewBoardHandler (user parameters) (password parameters) in
  let ids := truncate (reviews parameters)
                      (qualifying handler (api handler (listing_url encoded))) in
  exists w',
    main parameters w = (w', inr tt)
    /\ files w' = <[out_file := PyStr.join LF ids]> (files w).
Proof.
  intros E1 E2 Hplug handler ids.
  rewrite (main_run parameters decoded encoded w E1 E2). cbv zeta.
  fold handler.
  pose proof (for_each_frame handler (reviews parameters)
                (rev (api handler (listing_url encoded))) (Selection 0 [])
                (record (Api (listing_url encoded)) (started w))) as Hframe.
  fold (select handler (reviews parameters) (api handler (listing_url encoded)))
    in Hframe.
  destruct (select_run handler (reviews parameters)
              (api handler (listing_url encoded))
              (record (Api (listing_url encoded)) (started w)))
    as (w1 & n & E & _).
  fold ids in E. rewrite E in Hframe |- *. simpl in Hframe |- *.
  destruct Hframe as (Hf & _).
  rewrite (verify_reviews_file _ _ _ _ Hplug). eexists.
  split; [reflexivity|]. simpl. rewrite Hf. reflexivity.
Qed.

(** X6: with the file plug-in and an accepted query, every identifier
    written is a decimal numeral, and splitting the content of the
    output file at line feeds gives back the selected identifiers, as
    long as there is at least one; for an empty selection the split of
    the empty file is one empty field. *)
Theorem output_file_reads_back parameters decoded encoded out_file w :
  json_loads (query parameters) = inr decoded ->
  urlencode decoded = inr encoded ->
  subcommand parameters = FilePlugin out_file ->
  let handler := ReviewBoardHandler (user parameters) (password parameters) in
  let ids := truncate (reviews parameters)
                      (qualifying handler (api handler (listing_url encoded))) in
  exists w' content,
    main parameters w = (w', inr tt)
    /\ files w' !! out_file = Some content
    /\ Forall (fun id => PyMore.all_chars PyMore.is_numeral_char id = true) ids
    /\ (ids <> [] -> PyStr.split PyMore.LF_char content = ids)
    /\ (ids = [] -> content = "" /\ PyStr.split PyMore.LF_char content = [""]).
Proof.
  intros E1 E2 Hplug handler ids.
  destruct (main_file_run parameters decoded encoded out_file w E1 E2 Hplug)
    as (w' & E & Hfiles).
  fold handler ids in Hfiles.
  pose proof (qualifying_numerals handler (reviews parameters)
                (api handler (listing_url encoded))) as Hnum.
  fold ids in Hnum.
  exists w', (PyStr.join LF ids). split; [exact E|].
  split; [rewrite Hfiles; apply lookup_insert_eq|]. split; [exact Hnum|]. split.
  - intros Hne. apply (split_join PyMore.LF_char ids Hne).
    eapply List.Forall_impl; [|exact Hnum]. intros id Hid.
    apply (all_chars_excludes _ _ _ Hid). reflexivity.
  - intros ->. split; reflexivity.
Qed.

(** X7: when the fetched reviews have pairwise distinct identifiers, no
    identifier is selected twice. *)
Theorem selection_without_repeats handler cap fetched w :
  List.NoDup (map review_id fetched) ->
  exists w' chosen,
    select handler cap fetched w = (w', inr chosen)
    /\ List.NoDup (review_ids chosen).
Proof.
  intros Hnd.
  destruct (select_run handler cap fetched w) as (w' & n & E & _).
  eexists _, _. split; [exact E|]. simpl.
  unfold truncate, qualifying.
  assert (Hq : List.NoDup
                 (map (fun r => PyStr.str_int (review_id r))
                      (filter (fun r => passes handler r = true) (rev fetched)))).
  { rewrite <- (map_map review_id PyStr.str_int).
    apply NoDup_map_injective; [intros x y; apply (inj pretty)|].
    apply NoDup_map_filter. rewrite map_rev. apply NoDup_rev. exact Hnd. }
  destruct (cap =? -1); [exact Hq|]. apply NoDup_take_keeps. exact Hq.
Qed.

(** X8: raising the cap only appends: the selection under a cap is a
    prefix of the selection under any larger cap and of the unbounded
    selection. *)
Theorem larger_cap_extends handler fetched k k' w w0 :
  k' = -1 \/ (k <> -1 /\ k <= k') ->
  exists w1 w2 small large,
    select handler k fetched w = (w1, inr small)
    /\ select handler k' fetched w0 = (w2, inr large)
    /\ review_ids small `prefix_of` review_ids large.
Proof.
  intros Hcaps.
  destruct (select_run handler k fetched w) as (w1 & n1 & E1 & _).
  destruct (select_run handler k' fetched w0) as (w2 & n2 & E2 & _).
  eexists _, _, _, _. split; [exact E1|]. split; [exact E2|]. simpl.
  unfold truncate. destruct Hcaps as [->|[Hk Hle]].
  - simpl. destruct (k =? -1); [reflexivity | apply prefix_take].
  - apply Z.eqb_neq in Hk. rewrite Hk.
    destruct (k' =? -1); [apply prefix_take|].
    replace (take (Z.to_nat k) (qualifying handler fetched))
      with (take (Z.to_nat k) (take (Z.to_nat k') (qualifying handler fetched))).
    + apply prefix_take.
    + rewrite take_take. f_equal. lia.
Qed.


(** *** The calls of the selection loop *)

Lemma examine_trace handler cap r st w :
  selecting cap st = true ->
  let w' := (examine handler cap r st w).1 in
  asked w' = (asked w ++ [r])%list
  /\ resolved w'
     = (resolved w ++ if status_true handler r then [r] else [])%list
  /\ comments w'
     = (comments w ++ match cycle_comment handler r with
                      | Some posted => [posted]
                      | None => []
                      end)%list
  /\ stdout w' = (stdout w ++ warnings handler r)%list.
Proof.
  intros Hsel. unfold examine. fold (selecting cap st). rewrite Hsel.
  unfold status_true, cycle_comment, warnings, raised.
  unfold try_except, call_needs_verification, call_get_review_ids,
    call_post_review, print.
  rewrite !run_bind. simpl.
  destruct (needs_verification handler r) as [[a|t]|[|]]; simpl;
    [| | destruct (get_review_ids handler r) as [[a|t]|ids]; simpl |];
    unfold asked, resolved, comments; simpl; rewrite ?omap_app; simpl;
    rewrite ?app_nil_r, <- ?app_assoc; simpl;
    repeat split; reflexivity.
Qed.

Lemma for_each_trace handler cap l st w :
  exists examined skipped w' st',
    l = (examined ++ skipped)%list
    /\ for_each l (examine handler cap) st w = (w', inr st')
    /\ asked w' = (asked w ++ examined)%list
    /\ resolved w'
       = (resolved w
          ++ filter (fun r => status_true handler r = true) examined)%list
    /\ comments w' = (comments w ++ omap (cycle_comment handler) examined)%list
    /\ stdout w' = (stdout w ++ flat_map (warnings handler) examined)%list
    /\ (skipped <> [] -> selecting cap st' = false).
Proof.
  revert st w. induction l as [|r l IH]; intros st w.
  - exists [], [], w, st. simpl. rewrite !app_nil_r.
    repeat split; try reflexivity. congruence.
  - destruct (selecting cap st) eqn:Hsel.
    + pose proof (examine_trace handler cap r st w Hsel) as Hstep.
      destruct (examine_selection handler cap r st w) as [w1 E1].
      rewrite E1 in Hstep. simpl in Hstep.
      destruct Hstep as (Ha & Hr & Hc & Ho).
      destruct (IH (if selecting cap st && passes handler r
                    then Selection (num_reviews st + 1)
                           (review_ids st ++ [PyStr.str_int (review_id r)])
                    else st) w1)
        as (examined & skipped & w' & st' & -> & E & Ha' & Hr' & Hc' & Ho' & Hs').
      exists (r :: examined), skipped, w', st'.
      split; [reflexivity|]. split.
      { simpl. rewrite run_bind, E1. exact E. }
      rewrite Ha', Hr', Hc', Ho', Ha, Hr, Hc, Ho, <- !app_assoc.
      split; [reflexivity|]. split.
      { rewrite filter_cons. destruct (status_true handler r); reflexivity. }
      split.
      { change (omap (cycle_comment handler) (r :: examined))
          with (match cycle_comment handler r with
                | Some posted => posted :: omap (cycle_comment handler) examined
                | None => omap (cycle_comment handler) examined
                end).
        destruct (cycle_comment handler r); reflexivity. }
      split; [reflexivity | exact Hs'].
    + exists [], (r :: l), w, st. rewrite (for_each_closed _ _ _ _ _ Hsel).
      simpl. rewrite !app_nil_r. repeat split; try reflexivity.
      intros _. exact Hsel.
Qed.

(** X9: the loop asks the status of the fetched reviews oldest first,
    each at most once, along a prefix of the reversed fetched list; a
    review is left unasked only when a cap other than -1 has been
    reached, so the unbounded run asks every fetched review exactly
    once. *)
Theorem reviews_asked_in_order handler cap fetched w :
  exists examined skipped w' chosen,
    rev fetched = (examined ++ skipped)%list
    /\ select handler cap fetched w = (w', inr chosen)
    /\ asked w' = (asked w ++ examined)%list
    /\ (skipped <> [] -> cap <> -1 /\ cap <= num_reviews chosen)
    /\ (cap = -1 -> asked w' = (asked w ++ rev fetched)%list).
Proof.
  destruct (for_each_trace handler cap (rev fetched) (Selection 0 []) w)
    as (examined & skipped & w' & chosen & Hsplit & E & Ha & _ & _ & _ & Hs).
  exists examined, skipped, w', chosen.
  split; [exact Hsplit|]. split; [exact E|]. split; [exact Ha|].
  assert (Hreached : skipped <> [] -> cap <> -1 /\ cap <= num_reviews chosen).
  { intros Hne. specialize (Hs Hne). unfold selecting in Hs.
    apply orb_false_elim in Hs as [H1 H2].
    apply Z.eqb_neq in H1. apply Z.ltb_ge in H2. split; assumption. }
  split; [exact Hreached|].
  intros Hcap. destruct skipped as [|r skipped].
  - rewrite app_nil_r in Hsplit. rewrite Hsplit. exact Ha.
  - destruct Hreached as [Hne _]; [discriminate | congruence].
Qed.

(** X10: the comments posted by the loop are exactly those of the
    examined reviews whose status check or chain resolution raised
    [ReviewError], in order and with the text of the error: no comment
    goes to a review that was not fetched or did not raise it, and the
    unbounded run comments every such fetched review once. *)
Theorem comments_only_for_cycles handler cap fetched w :
  exists examined skipped w' chosen,
    rev fetched = (examined ++ skipped)%list
    /\ select handler cap fetched w = (w', inr chosen)
    /\ comments w' = (comments w ++ omap (cycle_comment handler) examined)%list
    /\ (forall r message,
           In (r, message) (omap (cycle_comment handler) examined) ->
           In r fetched
           /\ exists arg0,
               resolution_raises handler r (ReviewError arg0)
               /\ message = bad_review_message arg0)
    /\ (cap = -1 ->
        comments w'
        = (comments w ++ omap (cycle_comment handler) (rev fetched))%list).
Proof.
  destruct (for_each_trace handler cap (rev fetched) (Selection 0 []) w)
    as (examined & skipped & w' & chosen & Hsplit & E & _ & _ & Hc & _ & Hs).
  exists examined, skipped, w', chosen.
  split; [exact Hsplit|]. split; [exact E|]. split; [exact Hc|]. split.
  - intros r message Hin.
    apply list_elem_of_In, list_elem_of_omap in Hin as (r' & Hr' & Hcom).
    apply list_elem_of_In in Hr'.
    assert (Hfetched : In r' fetched).
    { apply in_rev. rewrite Hsplit. apply in_or_app. left. exact Hr'. }
    unfold cycle_comment, raised, resolution_raises in *.
    destruct (needs_verification handler r') as [[a|t]|[|]] eqn:Hnv;
      try discriminate Hcom.
    + inversion Hcom; subst. split; [exact Hfetched|].
      exists a. split; [left; exact Hnv | reflexivity].
    + destruct (get_review_ids handler r') as [[a|t]|ids] eqn:Hchain;
        try discriminate Hcom.
      inversion Hcom; subst. split; [exact Hfetched|].
      exists a. split; [right; split; [exact Hnv | exact Hchain] | reflexivity].
  - intros Hcap. destruct skipped as [|r skipped].
    + rewrite app_nil_r in Hsplit. rewrite Hsplit. exact Hc.
    + assert (Hclosed : selecting cap chosen = false) by (apply Hs; discriminate).
      subst cap. discriminate Hclosed.
Qed.

(** X11: the dependency chain is requested only for examined reviews
    whose status check returned true, once each and in order; a review
    that does not need verification or whose status check raised costs
    one call and no chain request. *)
Theorem chain_resolved_after_true_status handler cap fetched w :
  exists examined skipped w' chosen,
    rev fetched = (examined ++ skipped)%list
    /\ select handler cap fetched w = (w', inr chosen)
    /\ asked w' = (asked w ++ examined)%list
    /\ resolved w'
       = (resolved w
          ++ filter (fun r => status_true handler r = true) examined)%list
    /\ (forall r,
           In r (filter (fun r => status_true handler r = true) examined) ->
           In r fetched /\ needs_verification handler r = inr true).
Proof.
  destruct (for_each_trace handler cap (rev fetched) (Selection 0 []) w)
    as (examined & skipped & w' & chosen & Hsplit & E & Ha & Hr & _ & _ & _).
  exists examined, skipped, w', chosen.
  split; [exact Hsplit|]. split; [exact E|]. split; [exact Ha|].
  split; [exact Hr|].
  intros r Hin. apply list_elem_of_In, list_elem_of_filter in Hin as [Ht Hin].
  apply list_elem_of_In in Hin. split.
  - apply in_rev. rewrite Hsplit. apply in_or_app. left. exact Hin.
  - unfold status_true in Ht.
    destruct (needs_verification handler r) as [e|[|]];
      [discriminate | reflexivity | discriminate].
Qed.

(** X18: the loop prints exactly the two warning lines of each
    examined review whose status check or chain resolution raised an
    error other than [ReviewError], in order, and nothing else: a
    review that is selected, skipped or commented prints no line. *)
Theorem warnings_only_for_other_errors handler cap fetched w :
  exists examined skipped w' chosen,
    rev fetched = (examined ++ skipped)%list
    /\ select handler cap fetched w = (w', inr chosen)
    /\ stdout w' = (stdout w ++ flat_map (warnings handler) examined)%list
    /\ (forall r,
           In r fetched ->
           warnings handler r <> [] ->
           exists text,
             resolution_raises handler r (Exception text)
             /\ warnings handler r = warning_lines r text)
    /\ (forall r arg0,
           resolution_raises handler r (ReviewError arg0) ->
           warnings handler r = [])
    /\ (forall r, passes handler r = true -> warnings handler r = []).
Proof.
  destruct (for_each_trace handler cap (rev fetched) (Selection 0 []) w)
    as (examined & skipped & w' & chosen & Hsplit & E & _ & _ & _ & Ho & _).
  exists examined, skipped, w', chosen.
  split; [exact Hsplit|]. split; [exact E|]. split; [exact Ho|].
  unfold warnings, raised, resolution_raises, passes.
  split; [|split].
  - intros r _ Hlines.
    destruct (needs_verification handler r) as [[a|t]|[|]] eqn:Hnv;
      try congruence.
    + exists t. split; [left; reflexivity | reflexivity].
    + destruct (get_review_ids handler r) as [[a|t]|ids] eqn:Hchain;
        try congruence.
      exists t. split; [right; split; reflexivity | reflexivity].
  - intros r arg0 [->|[-> ->]]; reflexivity.
  - intros r Hp.
    destruct (needs_verification handler r) as [e|[|]]; try discriminate Hp.
    destruct (get_review_ids handler r) as [e|ids]; [discriminate Hp|].
    reflexivity.
Qed.

(** X12: the selection loop only talks to the tracker and to the
    terminal: it writes no file, submits no job, draws no token and
    sends no listing request. *)
Theorem selection_leaves_dispatch_alone handler cap fetched w :
  exists w' chosen,
    select handler cap fetched w = (w', inr chosen)
    /\ files w' = files w
    /\ gearman w' = gearman w
    /\ uuids w' = uuids w
    /\ fetches w' = fetches w.
Proof.
  pose proof (for_each_frame handler cap (rev fetched) (Selection 0 []) w)
    as Hframe.
  fold (select handler cap fetched) in Hframe.
  destruct (select_run handler cap fetched w) as (w' & n & E & _).
  rewrite E in Hframe. simpl in Hframe.
  eexists _, _. split; [exact E | exact Hframe].
Qed.


(** *** Dispatch *)

Lemma prepare_job_any task_name params review_id jobs w :
  let w' := (prepare_job task_name params review_id jobs w).1 in
  files w' = files w /\ tracker w' = tracker w /\ gearman w' = gearman w
  /\ match (prepare_job task_name params review_id jobs w).2 with
     | inr extended =>
         exists j,
           extended = (jobs ++ [j])%list
           /\ task j = task_name
           /\ unique j = uuid4_hex (uuids w)
           /\ uuids w' = S (uuids w)
     | inl _ => params <> None /\ uuids w' = uuids w
     end.
Proof.
  unfold prepare_job. rewrite run_bind. simpl.
  destruct params as [text|]; simpl.
  - rewrite !run_bind. unfold lift.
    destruct (json_loads text) as [e|extra]; simpl.
    { repeat split; discriminate. }
    destruct (dict_update (base_params review_id) extra) as [e|job_params];
      simpl.
    { repeat split; discriminate. }
    repeat split. eexists. repeat split.
  - repeat split. eexists. repeat split.
Qed.

Lemma prepare_jobs_any task_name params ids jobs w :
  let w' := (for_each ids (prepare_job task_name params) jobs w).1 in
  files w' = files w /\ tracker w' = tracker w /\ gearman w' = gearman w
  /\ match (for_each ids (prepare_job task_name params) jobs w).2 with
     | inr extended =>
         exists new,
           extended = (jobs ++ new)%list
           /\ length new = length ids
           /\ map unique new = tokens (uuids w) (length ids)
           /\ Forall (fun j => task j = task_name) new
           /\ uuids w' = (uuids w + length ids)%nat
     | inl _ => params <> None /\ ids <> []
     end.
Proof.
  revert jobs w. induction ids as [|review_id rest IH]; intros jobs w.
  - simpl. repeat split. exists []. rewrite app_nil_r, Nat.add_0_r.
    repeat split. constructor.
  - simpl for_each. rewrite run_bind.
    pose proof (prepare_job_any task_name params review_id jobs w) as Hstep.
    destruct (prepare_job task_name params review_id jobs w) as [w1 [e|extended]].
    + simpl in *. destruct Hstep as (Hf & Ht & Hg & Hp & _).
      repeat split; try assumption. discriminate.
    + simpl in Hstep.
      destruct Hstep as (Hf & Ht & Hg & j & -> & Htask & Huniq & Hu).
      specialize (IH (jobs ++ [j])%list w1).
      destruct (for_each rest (prepare_job task_name params)
                         (jobs ++ [j])%list w1)
        as [w' [e|final]]; simpl in *.
      * destruct IH as (Hf' & Ht' & Hg' & Hp & _).
        rewrite Hf', Ht', Hg'. repeat split; try assumption. discriminate.
      * destruct IH as (Hf' & Ht' & Hg' & new & -> & Hlen & Htok & Htasks & Hu').
        rewrite Hf', Ht', Hg'. repeat split; try assumption.
        exists (j :: new). rewrite <- app_assoc. split; [reflexivity|].
        split; [simpl; rewrite Hlen; reflexivity|]. split.
        { unfold tokens in *. simpl. rewrite Huniq, Htok, Hu. reflexivity. }
        split; [constructor; assumption|]. rewrite Hu', Hu. lia.
Qed.

Lemma selection_frame_of handler cap fetched w :
  exists w' chosen,
    select handler cap fetched w = (w', inr chosen)
    /\ fetches w' = fetches w.
Proof.
  pose proof (for_each_frame handler cap (rev fetched) (Selection 0 []) w)
    as Hframe.
  fold (select handler cap fetched) in Hframe.
  destruct (select_run handler cap fetched w) as (w' & n & E & _).
  rewrite E in Hframe. simpl in Hframe.
  eexists _, _. split; [exact E | apply Hframe].
Qed.

Lemma verify_reviews_queue ids parameters servers job_name params w :
  subcommand parameters = GearmanPlugin servers job_name params ->
  ids <> [] ->
  verify_reviews ids parameters w
  = match for_each ids (prepare_job ("build:" ++ job_name) params) []
                   (announced (length ids) w) with
    | (w1, inr jobs) => trigger_gearman_jobs (normalize_servers servers) jobs w1
    | (w1, inl err) => (w1, inl err)
    end.
Proof.
  intros Hplug Hne. unfold verify_reviews. rewrite Hplug, run_bind.
  destruct ids as [|review_id rest]; [congruence|]. reflexivity.
Qed.

Lemma dispatch_frame ids parameters w :
  tracker (verify_reviews ids parameters w).1 = tracker w.
Proof.
  destruct (subcommand parameters) as [out_file|servers job_name params] eqn:Hplug.
  - rewrite (verify_reviews_file _ _ _ _ Hplug). reflexivity.
  - destruct ids as [|review_id rest].
    { rewrite (verify_reviews_none _ _ _ _ _ Hplug). reflexivity. }
    rewrite (verify_reviews_queue _ _ _ _ _ _ Hplug) by discriminate.
    pose proof (prepare_jobs_any ("build:" ++ job_name) params
                  (review_id :: rest) []
                  (announced (length (review_id :: rest)) w)) as Hjobs.
    destruct (for_each (review_id :: rest)
                (prepare_job ("build:" ++ job_name) params) []
                (announced (length (review_id :: rest)) w))
      as [w1 [e|jobs]]; simpl in Hjobs |- *; apply Hjobs.
Qed.

(** X13: [verify_reviews] never calls the tracker, and its dispatch is
    all or nothing: when it raises, which only the Gearman plug-in with
    a --params text and a non-empty selection can do, no batch is
    submitted and no file is written; when it returns, the Gearman
    plug-in has submitted nothing for an empty selection and otherwise
    exactly one batch with one job per identifier. *)
Theorem dispatch_all_or_nothing ids parameters w :
  let w' := (verify_reviews ids parameters w).1 in
  tracker w' = tracker w
  /\ match (verify_reviews ids parameters w).2 with
     | inl _ =>
         gearman w' = gearman w
         /\ files w' = files w
         /\ ids <> []
         /\ exists servers job_name text,
             subcommand parameters = GearmanPlugin servers job_name (Some text)
     | inr _ =>
         match subcommand parameters with
         | FilePlugin out_file =>
             gearman w' = gearman w
             /\ files w' = <[out_file := PyStr.join LF ids]> (files w)
         | GearmanPlugin servers job_name _ =>
             files w' = files w
             /\ match ids with
                | [] => gearman w' = gearman w
                | _ =>
                    exists jobs,
                      gearman w'
                      = (gearman w ++ [(normalize_servers servers, jobs)])%list
                      /\ length jobs = length ids
                end
         end
     end.
Proof.
  destruct (subcommand parameters) as [out_file|servers job_name params] eqn:Hplug.
  - rewrite (verify_reviews_file _ _ _ _ Hplug). simpl. repeat split.
  - destruct ids as [|review_id rest].
    { rewrite (verify_reviews_none _ _ _ _ _ Hplug). simpl. repeat split. }
    rewrite (verify_reviews_queue _ _ _ _ _ _ Hplug) by discriminate.
    pose proof (prepare_jobs_any ("build:" ++ job_name) params
                  (review_id :: rest) []
                  (announced (length (review_id :: rest)) w)) as Hjobs.
    destruct (for_each (review_id :: rest)
                (prepare_job ("build:" ++ job_name) params) []
                (announced (length (review_id :: rest)) w))
      as [w1 [e|jobs]]; simpl in Hjobs.
    + destruct Hjobs as (Hf & Ht & Hg & Hp & _). simpl.
      repeat split; try assumption; [discriminate|].
      destruct params as [text|]; [|congruence].
      exists servers, job_name, text. reflexivity.
    + destruct Hjobs as (Hf & Ht & Hg & new & -> & Hlen & _). simpl.
      split; [exact Ht|]. split; [exact Hf|].
      exists new. rewrite Hg. split; [reflexivity | exact Hlen].
Qed.

(** X14: the jobs of a batch are tagged, in order, with the tokens of
    consecutive draws, one draw per job and none besides; when the
    draws give pairwise different tokens, no two jobs of the batch
    share a [unique] field. *)
Theorem jobs_tagged_with_fresh_tokens ids parameters servers job_name
    params extra w :
  subcommand parameters = GearmanPlugin servers job_name params ->
  params_mapping params extra ->
  ids <> [] ->
  exists w' jobs,
    verify_reviews ids parameters w = (w', inr tt)
    /\ gearman w' = (gearman w ++ [(normalize_servers servers, jobs)])%list
    /\ map unique jobs = tokens (uuids w) (length ids)
    /\ uuids w' = (uuids w + length ids)%nat
    /\ ((forall m n, uuid4_hex m = uuid4_hex n -> m = n) ->
        List.NoDup (map unique jobs)).
Proof.
  intros Hplug Hp Hne.
  rewrite (verify_reviews_jobs _ _ _ _ _ _ _ Hplug Hp Hne).
  eexists _, _. split; [reflexivity|]. simpl. split; [reflexivity|].
  assert (Htok : forall next,
             map unique (job_descriptors next ("build:" ++ job_name) extra ids)
             = tokens next (length ids)).
  { clear. induction ids as [|x ids IH]; intros next; [reflexivity|].
    simpl. unfold tokens in *. simpl. rewrite IH. reflexivity. }
  split; [apply Htok|]. split; [reflexivity|].
  intros Hinj. rewrite Htok. unfold tokens.
  apply NoDup_map_injective; [exact Hinj | apply List.seq_NoDup].
Qed.

Lemma base_params_elsewhere id1 id2 k :
  k <> "REVIEW_ID" -> base_params id1 !! k = base_params id2 !! k.
Proof.
  intros Hk. unfold base_params. rewrite !lookup_insert_ne by congruence.
  reflexivity.
Qed.

(** X15: a --params object that has the key REVIEW_ID replaces the
    review identifier in every job: all the jobs of the batch then
    carry the same data, whatever the selected identifiers. *)
Theorem review_id_can_be_overridden ids parameters servers job_name
    params extra v w :
  subcommand parameters = GearmanPlugin servers job_name params ->
  params_mapping params extra ->
  ids <> [] ->
  extra !! "REVIEW_ID" = Some v ->
  (forall id1 id2, extra ∪ base_params id1 = extra ∪ base_params id2)
  /\ exists w' jobs,
      verify_reviews ids parameters w = (w', inr tt)
      /\ gearman w' = (gearman w ++ [(normalize_servers servers, jobs)])%list
      /\ length jobs = length ids
      /\ Forall (fun j => data j
                          = json_dumps (JObj (extra ∪ base_params "")))
                jobs.
Proof.
  intros Hplug Hp Hne Hkey.
  assert (Hsame : forall id1 id2,
             extra ∪ base_params id1 = extra ∪ base_params id2).
  { intros id1 id2. apply map_eq. intros k. rewrite !lookup_union.
    destruct (decide (k = "REVIEW_ID")) as [->|Hk].
    - rewrite Hkey. unfold base_params. rewrite !lookup_insert_eq. reflexivity.
    - rewrite (base_params_elsewhere id1 id2 k Hk). reflexivity. }
  split; [exact Hsame|].
  rewrite (verify_reviews_jobs _ _ _ _ _ _ _ Hplug Hp Hne).
  eexists _, _. split; [reflexivity|]. simpl. split; [reflexivity|].
  generalize (uuids w). clear - Hsame.
  induction ids as [|x ids IH]; intros next; simpl.
  - split; [reflexivity | constructor].
  - destruct (IH (S next)) as [Hlen Hall]. split; [rewrite Hlen; reflexivity|].
    constructor; [|exact Hall]. simpl. rewrite (Hsame x ""). reflexivity.
Qed.

(** X16: a query that decodes but cannot be URL-encoded makes the run
    fail at startup; once the query is encoded, the run sends exactly
    one listing request, to the URL built from it, whether it then
    returns or raises. *)
Theorem one_listing_request parameters decoded w :
  json_loads (query parameters) = inr decoded ->
  (forall err,
      urlencode decoded = inl err ->
      main parameters w = (started w, inl err)
      /\ fails_at_startup parameters w)
  /\ (forall encoded,
         urlencode decoded = inr encoded ->
         fetches (main parameters w).1
         = (fetches w ++ [listing_url encoded])%list).
Proof.
  intros E1. split.
  - intros err E2.
    assert (Hmain : main parameters w = (started w, inl err)).
    { unfold main. rewrite !run_bind. simpl. unfold lift. rewrite E1.
      rewrite !run_bind. rewrite E2. reflexivity. }
    split; [exact Hmain|].
    exists err, (started w). repeat split; [exact Hmain|..]; reflexivity.
  - intros encoded E2.
    rewrite (main_run parameters decoded encoded w E1 E2). cbv zeta.
    set (handler := ReviewBoardHandler (user parameters) (password parameters)).
    destruct (selection_frame_of handler (reviews parameters)
                (api handler (listing_url encoded))
                (record (Api (listing_url encoded)) (started w)))
      as (w1 & chosen & E & Hfetch).
    rewrite E.
    pose proof (dispatch_frame (review_ids chosen) parameters w1) as Htracker.
    unfold fetches at 1. rewrite Htracker. fold (fetches w1).
    rewrite Hfetch, fetches_record. reflexivity.
Qed.

End Further.

(** ** Runs on the stand-ins *)

Import Sample.

Example sample_loads_query :
  Sample.loads Sample.pending_query
  = inr (JObj {[ "status" := JStr "pending";
                 "last-updated-from" := JStr "2016-11-03T02:15:00" ]}).
Proof. vm_compute. reflexivity. Qed.

Example sample_loads_truncated :
  Sample.loads "{bad" = inl (Exception "No JSON object could be decoded").
Proof. vm_compute. reflexivity. Qed.

Lemma servers_example_run :
  normalize_servers " x:1:2 ,, h: " = ["x:4730"; ":4730"; "h:"].
Proof. vm_compute. reflexivity. Qed.

Lemma dispatched_identifiers_witness :
  json_loads (query (command_line (-1) to_file)) = inr pending_filter
  /\ urlencode pending_filter = inr pending_encoded
  /\ exists w',
      main (command_line (-1) to_file) boot = (w', inr tt)
      /\ files w' !! "ids.txt" = Some (String "5" (String (ascii_of_nat 10) "1")).
Proof.
  assert (E1 : json_loads (query (command_line (-1) to_file))
               = inr pending_filter) by (vm_compute; reflexivity).
  assert (E2 : urlencode pending_filter = inr pending_encoded)
    by (vm_compute; reflexivity).
  split; [exact E1|]. split; [exact E2|].
  destruct (dispatched_identifiers (command_line (-1) to_file) pending_filter
              pending_encoded boot E1 E2) as (_ & _ & Hfile & _).
  destruct (Hfile "ids.txt" eq_refl) as (w' & E & Hfiles).
  exists w'. split; [exact E|]. rewrite Hfiles. vm_compute. reflexivity.
Defined.

Lemma cap_semantics_witness :
  0 < 1
  /\ (exists w' chosen,
         select handler 1 inbox boot = (w', inr chosen)
         /\ Z.of_nat (length (review_ids chosen)) <= 1)
  /\ for_each ([Review 6 (ChainFails "timed out"); Review 5 Ready]
               ++ [Review 4 (StatusFails "HTTP 500"); Review 3 Verified])
              (examine handler 1) (Selection 0 []) boot
     = ((for_each [Review 6 (ChainFails "timed out"); Review 5 Ready]
                  (examine handler 1) (Selection 0 []) boot).1,
        inr (Selection 1 ["5"])).
Proof.
  destruct (cap_semantics handler inbox boot) as (_ & _ & Hmost & Hstop).
  split; [lia|]. split.
  - destruct (Hmost 1 ltac:(lia)) as (w' & chosen & E & Hlen & _).
    exists w', chosen. split; [exact E | exact Hlen].
  - apply (Hstop 1); [lia | vm_compute; reflexivity | reflexivity].
Defined.

Lemma negative_cap_selects_nothing_witness :
  reviews (command_line (-2) to_file) < -1
  /\ json_loads (query (command_line (-2) to_file)) = inr pending_filter
  /\ urlencode pending_filter = inr pending_encoded
  /\ select handler (-2) inbox boot = (boot, inr (Selection 0 []))
  /\ exists w',
      main (command_line (-2) to_file) boot = (w', inr tt)
      /\ files w' = {[ "ids.txt" := "" ]}.
Proof.
  assert (Hcap : reviews (command_line (-2) to_file) < -1) by (simpl; lia).
  assert (E1 : json_loads (query (command_line (-2) to_file))
               = inr pending_filter) by (vm_compute; reflexivity).
  assert (E2 : urlencode pending_filter = inr pending_encoded)
    by (vm_compute; reflexivity).
  split; [exact Hcap|]. split; [exact E1|]. split; [exact E2|].
  destruct (negative_cap_selects_nothing (command_line (-2) to_file)
              pending_filter pending_encoded boot Hcap E1 E2)
    as (Hsel & _ & w' & E & _ & _ & Hfiles).
  split; [apply Hsel|].
  exists w'. split; [exact E|]. rewrite Hfiles. reflexivity.
Defined.

Lemma cyclic_review_commented_witness :
  cap_open (-1) (Selection 0 [])
  /\ resolution_raises handler (Review 2 (Cyclic "2 -> 3 -> 2"))
       (ReviewError "2 -> 3 -> 2")
  /\ (exists w',
         examine handler (-1) (Review 2 (Cyclic "2 -> 3 -> 2"))
                 (Selection 0 []) boot
         = (w', inr (Selection 0 []))
         /\ comments w'
            = [(Review 2 (Cyclic "2 -> 3 -> 2"),
                bad_review_message "2 -> 3 -> 2")])
  /\ ~ In "2" (review_ids (Selection 2 ["5"; "1"])).
Proof.
  assert (Hopen : cap_open (-1) (Selection 0 [])) by (left; reflexivity).
  assert (Hraise : resolution_raises handler (Review 2 (Cyclic "2 -> 3 -> 2"))
                     (ReviewError "2 -> 3 -> 2"))
    by (right; split; reflexivity).
  split; [exact Hopen|]. split; [exact Hraise|].
  destruct (cyclic_review_commented handler (-1)
              (Review 2 (Cyclic "2 -> 3 -> 2")) (Selection 0 []) boot
              "2 -> 3 -> 2" Hopen Hraise) as [(w' & E & Hcom & _) Hnever].
  split.
  - exists w'. split; [exact E | exact Hcom].
  - apply (Hnever (-1) inbox boot (select handler (-1) inbox boot).1).
    + intros r' Hin Hid. simpl in Hin.
      repeat (destruct Hin as [<-|Hin]; [try discriminate; reflexivity|]).
      destruct Hin.
    + vm_compute. reflexivity.
Defined.

Lemma other_error_skipped_witness :
  cap_open 3 (Selection 0 [])
  /\ resolution_raises handler (Review 4 (StatusFails "HTTP 500"))
       (Exception "HTTP 500")
  /\ exists w',
      examine handler 3 (Review 4 (StatusFails "HTTP 500")) (Selection 0 []) boot
      = (w', inr (Selection 0 []))
      /\ stdout w'
         = ["Error occured: HTTP 500";
            "WARNING: Cannot find if review 4 needs verification"]
      /\ for_each [Review 4 (StatusFails "HTTP 500"); Review 1 Ready]
                  (examine handler 3) (Selection 0 []) boot
         = for_each [Review 1 Ready] (examine handler 3) (Selection 0 []) w'.
Proof.
  assert (Hopen : cap_open 3 (Selection 0 [])) by (right; simpl; lia).
  assert (Hraise : resolution_raises handler (Review 4 (StatusFails "HTTP 500"))
                     (Exception "HTTP 500")) by (left; reflexivity).
  split; [exact Hopen|]. split; [exact Hraise|].
  destruct (other_error_skipped handler 3 (Review 4 (StatusFails "HTTP 500"))
              [Review 1 Ready] (Selection 0 []) boot "HTTP 500" Hopen Hraise)
    as (w' & E & Hout & _ & _ & _ & _ & Hnext).
  exists w'. split; [exact E|]. split; [exact Hout | exact Hnext].
Defined.

Lemma file_plugin_output_witness :
  subcommand (command_line (-1) to_file) = FilePlugin "ids.txt"
  /\ exists w',
      verify_reviews ["5"; "9"] (command_line (-1) to_file)
        (World [] {[ "ids.txt" := "stale" ]} [] [] 0 : world review)
      = (w', inr tt)
      /\ files w' !! "ids.txt" = Some (String "5" (String (ascii_of_nat 10) "9")).
Proof.
  split; [reflexivity|].
  destruct (file_plugin_output ["5"; "9"] (command_line (-1) to_file) "ids.txt"
              (World [] {[ "ids.txt" := "stale" ]} [] [] 0 : world review)
              eq_refl) as ((w' & E & _ & Hfile & _) & _).
  exists w'. split; [exact E | exact Hfile].
Defined.

Lemma gearman_empty_selection_witness :
  subcommand (command_line 0 (to_queue (Some "{bad")))
  = GearmanPlugin "a.com,b.com:9999" "mesos-verify" (Some "{bad")
  /\ gearman (verify_reviews [] (command_line 0 (to_queue (Some "{bad")))
                             boot).1 = []
  /\ uuids (verify_reviews [] (command_line 0 (to_queue (Some "{bad")))
                           boot).1 = 0%nat.
Proof.
  split; [reflexivity|].
  destruct (gearman_empty_selection (command_line 0 (to_queue (Some "{bad")))
              "a.com,b.com:9999" "mesos-verify" (Some "{bad") boot eq_refl)
    as (_ & _ & Hg & Hu).
  split; [exact Hg | exact Hu].
Defined.

Lemma job_parameters_overlay_witness :
  subcommand (command_line (-1) (to_queue (Some override_text)))
  = GearmanPlugin "a.com,b.com:9999" "mesos-verify" (Some override_text)
  /\ params_mapping (Some override_text) override
  /\ ["5"; "1"] <> []
  /\ (exists w' jobs,
         verify_reviews ["5"; "1"]
           (command_line (-1) (to_queue (Some override_text))) boot
         = (w', inr tt)
         /\ gearman w' = [(["a.com:4730"; "b.com:9999"], jobs)]
         /\ length jobs = 2%nat)
  /\ (override ∪ base_params "5") !! "OFFLINE_NODE_WHEN_COMPLETE"
     = Some (JStr "true")
  /\ (override ∪ base_params "5") !! "REVIEW_ID" = Some (JStr "5").
Proof.
  assert (Hp : params_mapping (Some override_text) override)
    by (vm_compute; reflexivity).
  assert (Hne : ["5"; "1"] <> []) by discriminate.
  split; [reflexivity|]. split; [exact Hp|]. split; [exact Hne|].
  destruct (job_parameters_overlay ["5"; "1"]
              (command_line (-1) (to_queue (Some override_text)))
              "a.com,b.com:9999" "mesos-verify" (Some override_text) override
              boot eq_refl Hp Hne)
    as ((w' & jobs & E & Hg & Hjobs & _) & Hover & _).
  split; [|split].
  - exists w', jobs. split; [exact E|]. split.
    + rewrite Hg. vm_compute. reflexivity.
    + rewrite Hjobs. reflexivity.
  - rewrite Hover. reflexivity.
  - rewrite Hover. reflexivity.
Defined.

(** C2 as written fails on the --params text: with a malformed
    --params the sample run has already fetched the reviews and posted
    the cycle comment when it raises. *)
Lemma malformed_params_counterexample :
  invalid_json "{bad"
  /\ ~ fails_at_startup (command_line (-1) (to_queue (Some "{bad"))) boot
  /\ ~ malformed_json_claim (review_request := review).
Proof.
  assert (Hbad : invalid_json "{bad") by (eexists; vm_compute; reflexivity).
  assert (Hrun : ~ fails_at_startup
                   (command_line (-1) (to_queue (Some "{bad"))) boot).
  { intros (err & w' & E & Hfetch & _).
    vm_compute in E. inversion E; subst w'. discriminate Hfetch. }
  split; [exact Hbad|]. split; [exact Hrun|].
  intros Hclaim. apply Hrun, Hclaim. right.
  exists "a.com,b.com:9999", "mesos-verify", "{bad".
  split; [reflexivity | exact Hbad].
Qed.

Lemma malformed_json_failures_witness :
  json_loads "{bad" = inl (Exception "No JSON object could be decoded")
  /\ fails_at_startup
       {| user := "bot"; password := "secret"; reviews := -1;
          query := "{bad"; subcommand := to_queue None |} boot
  /\ json_loads (query (command_line (-1) (to_queue (Some "{bad"))))
     = inr pending_filter
  /\ urlencode pending_filter = inr pending_encoded
  /\ exists w',
      main (command_line (-1) (to_queue (Some "{bad"))) boot
      = (w', inl (Exception "No JSON object could be decoded"))
      /\ fetches w' = [listing_url pending_encoded]
      /\ gearman w' = [].
Proof.
  assert (Ebad : json_loads "{bad"
                 = inl (Exception "No JSON object could be decoded"))
    by (vm_compute; reflexivity).
  assert (E1 : json_loads (query (command_line (-1) (to_queue (Some "{bad"))))
               = inr pending_filter) by (vm_compute; reflexivity).
  assert (E2 : urlencode pending_filter = inr pending_encoded)
    by (vm_compute; reflexivity).
  split; [exact Ebad|]. split; [|split; [exact E1|split; [exact E2|]]].
  - destruct (malformed_json_failures
                {| user := "bot"; password := "secret"; reviews := -1;
                   query := "{bad"; subcommand := to_queue None |} boot)
      as [Hquery _].
    exact (proj2 (Hquery _ Ebad)).
  - destruct (malformed_json_failures
                (command_line (-1) (to_queue (Some "{bad"))) boot)
      as [_ Hparams].
    destruct (Hparams "a.com,b.com:9999" "mesos-verify" "{bad" _
                pending_filter pending_encoded eq_refl Ebad E1 E2)
      as (w1 & w' & Esel & E & _ & Hfetch & Hg & _).
    exists w'. split; [|split; [exact Hfetch | exact Hg]].
    rewrite E. reflexivity.
Defined.

(** ** Runs on the stand-ins: further properties *)

Lemma blank_servers_kept_witness :
  PyMore.all_chars PyStr.is_space "  " = true
  /\ normalize_server "  " = ":4730"
  /\ length (normalize_servers "a,,b") = 3%nat.
Proof.
  destruct blank_servers_kept as (Hlen & Hblank & _).
  split; [reflexivity|]. split.
  - apply (Hblank "  "). reflexivity.
  - rewrite (Hlen "a,,b"). reflexivity.
Defined.

Lemma extra_fields_dropped_witness :
  PyStr.strip " fe80:0:1 " = "fe80" ++ ":" ++ "0" ++ ":" ++ "1"
  /\ PyStr.contains ":" "fe80" = false
  /\ PyStr.contains ":" "0" = false
  /\ normalize_server " fe80:0:1 " = "fe80:4730".
Proof.
  split; [reflexivity|]. split; [reflexivity|]. split; [reflexivity|].
  apply (extra_fields_dropped " fe80:0:1 " "fe80" "0" "1"); reflexivity.
Defined.

Lemma encoded_colons_removed_witness :
  PyMore.occurs "%3A" "status=pending" = false
  /\ PyStr.replace_3A "status=pending" = "status=pending"
  /\ PyMore.occurs "%3A" (PyStr.replace_3A pending_encoded) = false.
Proof.
  destruct encoded_colons_removed as (Hclear & Hkeep & _).
  split; [reflexivity|]. split.
  - apply (Hkeep "status=pending"). reflexivity.
  - apply (Hclear pending_encoded).
Defined.

Lemma default_query_timestamp_witness :
  PyStr.contains "." "2016-11-03T02:15:00" = false
  /\ last_updated_from "2016-11-03T02:15:00" = "2016-11-03T02:15:00"
  /\ PyStr.contains "." (last_updated_from "2016-11-03T02:15:00.250000")
     = false.
Proof.
  split; [reflexivity|]. split.
  - destruct (default_query_timestamp "2016-11-03T02:15:00")
      as (_ & _ & _ & _ & _ & Hwhole & _).
    apply Hwhole. reflexivity.
  - destruct (default_query_timestamp "2016-11-03T02:15:00.250000")
      as (_ & _ & _ & _ & Hfree & _).
    exact Hfree.
Defined.

Lemma output_file_reads_back_witness :
  json_loads (query (command_line (-1) to_file)) = inr pending_filter
  /\ urlencode pending_filter = inr pending_encoded
  /\ subcommand (command_line (-1) to_file) = FilePlugin "ids.txt"
  /\ exists w' content,
      main (command_line (-1) to_file) boot = (w', inr tt)
      /\ files w' !! "ids.txt" = Some content
      /\ PyStr.split PyMore.LF_char content = ["5"; "1"].
Proof.
  assert (E1 : json_loads (query (command_line (-1) to_file))
               = inr pending_filter) by (vm_compute; reflexivity).
  assert (E2 : urlencode pending_filter = inr pending_encoded)
    by (vm_compute; reflexivity).
  split; [exact E1|]. split; [exact E2|]. split; [reflexivity|].
  destruct (output_file_reads_back (command_line (-1) to_file) pending_filter
              pending_encoded "ids.txt" boot E1 E2 eq_refl)
    as (w' & content & E & Hfile & _ & Hsplit & _).
  exists w', content. split; [exact E|]. split; [exact Hfile|].
  apply Hsplit. discriminate.
Defined.

Lemma selection_without_repeats_witness :
  List.NoDup (map review_id inbox)
  /\ exists w' chosen,
      select handler (-1) inbox boot = (w', inr chosen)
      /\ List.NoDup (review_ids chosen).
Proof.
  assert (Hnd : List.NoDup (map review_id inbox)).
  { simpl. repeat (constructor; [simpl; intuition discriminate|]).
    constructor. }
  split; [exact Hnd|].
  exact (selection_without_repeats handler (-1) inbox boot Hnd).
Defined.

Lemma larger_cap_extends_witness :
  (2 = -1 \/ (1 <> -1 /\ 1 <= 2))
  /\ exists w1 w2 small large,
      select handler 1 inbox boot = (w1, inr small)
      /\ select handler 2 inbox boot = (w2, inr large)
      /\ review_ids small `prefix_of` review_ids large.
Proof.
  assert (Hcaps : 2 = -1 \/ (1 <> -1 /\ 1 <= 2)) by (right; lia).
  split; [exact Hcaps|].
  exact (larger_cap_extends handler inbox 1 2 boot boot Hcaps).
Defined.

Lemma reviews_asked_in_order_witness :
  exists w' chosen,
    select handler (-1) inbox boot = (w', inr chosen)
    /\ asked w' = rev inbox.
Proof.
  destruct (reviews_asked_in_order handler (-1) inbox boot)
    as (examined & skipped & w' & chosen & _ & E & _ & _ & Hall).
  exists w', chosen. split; [exact E|]. exact (Hall eq_refl).
Defined.

Lemma comments_only_for_cycles_witness :
  exists w' chosen,
    select handler (-1) inbox boot = (w', inr chosen)
    /\ comments w'
       = [(Review 2 (Cyclic "2 -> 3 -> 2"), bad_review_message "2 -> 3 -> 2")].
Proof.
  destruct (comments_only_for_cycles handler (-1) inbox boot)
    as (examined & skipped & w' & chosen & _ & E & _ & _ & Hall).
  exists w', chosen. split; [exact E|]. rewrite (Hall eq_refl). reflexivity.
Defined.

Lemma chain_resolved_after_true_status_witness :
  exists examined skipped w' chosen,
    rev inbox = (examined ++ skipped)%list
    /\ select handler 1 inbox boot = (w', inr chosen)
    /\ resolved w'
       = filter (fun r => status_true handler r = true) examined
    /\ forall r,
        In r (filter (fun r => status_true handler r = true) examined) ->
        needs_verification handler r = inr true.
Proof.
  destruct (chain_resolved_after_true_status handler 1 inbox boot)
    as (examined & skipped & w' & chosen & Hsplit & E & _ & Hres & Htrue).
  exists examined, skipped, w', chosen.
  split; [exact Hsplit|]. split; [exact E|]. split; [exact Hres|].
  intros r Hin. exact (proj2 (Htrue r Hin)).
Defined.

Lemma jobs_tagged_with_fresh_tokens_witness :
  subcommand (command_line (-1) (to_queue (Some override_text)))
  = GearmanPlugin "a.com,b.com:9999" "mesos-verify" (Some override_text)
  /\ params_mapping (Some override_text) override
  /\ ["5"; "1"] <> []
  /\ (forall m n : nat, uuid4_hex m = uuid4_hex n -> m = n)
  /\ exists w' jobs,
      verify_reviews ["5"; "1"]
        (command_line (-1) (to_queue (Some override_text))) boot
      = (w', inr tt)
      /\ map unique jobs = ["token-0"; "token-1"]
      /\ List.NoDup (map unique jobs).
Proof.
  assert (Hp : params_mapping (Some override_text) override)
    by (vm_compute; reflexivity).
  assert (Hne : ["5"; "1"] <> []) by discriminate.
  assert (Hinj : forall m n : nat, uuid4_hex m = uuid4_hex n -> m = n).
  { intros m n Heq. apply (inj pretty).
    change (String "t" (String "o" (String "k" (String "e" (String "n"
              (String "-" (pretty m))))))
            = String "t" (String "o" (String "k" (String "e" (String "n"
                (String "-" (pretty n))))))) in Heq.
    injection Heq as Heq. exact Heq. }
  split; [reflexivity|]. split; [exact Hp|]. split; [exact Hne|].
  split; [exact Hinj|].
  destruct (jobs_tagged_with_fresh_tokens ["5"; "1"]
              (command_line (-1) (to_queue (Some override_text)))
              "a.com,b.com:9999" "mesos-verify" (Some override_text) override
              boot eq_refl Hp Hne) as (w' & jobs & E & _ & Htok & _ & Hfresh).
  exists w', jobs. split; [exact E|]. split; [|exact (Hfresh Hinj)].
  rewrite Htok. reflexivity.
Defined.

Lemma review_id_can_be_overridden_witness :
  subcommand (command_line (-1) (to_queue (Some SampleMore.pinned_text)))
  = GearmanPlugin "a.com,b.com:9999" "mesos-verify"
      (Some SampleMore.pinned_text)
  /\ params_mapping (Some SampleMore.pinned_text) SampleMore.pinned
  /\ ["5"; "1"] <> []
  /\ SampleMore.pinned !! "REVIEW_ID" = Some (JStr "42")
  /\ SampleMore.pinned ∪ base_params "5" = SampleMore.pinned ∪ base_params "1"
  /\ (SampleMore.pinned ∪ base_params "5") !! "REVIEW_ID" = Some (JStr "42").
Proof.
  assert (Hp : params_mapping (Some SampleMore.pinned_text) SampleMore.pinned)
    by (vm_compute; reflexivity).
  assert (Hne : ["5"; "1"] <> []) by discriminate.
  split; [reflexivity|]. split; [exact Hp|]. split; [exact Hne|].
  split; [reflexivity|].
  destruct (review_id_can_be_overridden ["5"; "1"]
              (command_line (-1) (to_queue (Some SampleMore.pinned_text)))
              "a.com,b.com:9999" "mesos-verify" (Some SampleMore.pinned_text)
              SampleMore.pinned (JStr "42") boot eq_refl Hp Hne eq_refl)
    as (Hsame & _).
  split; [exact (Hsame "5" "1") | reflexivity].
Defined.

Lemma one_listing_request_witness :
  json_loads (query SampleMore.number_query) = inr (JNum 5)
  /\ fails_at_startup SampleMore.number_query boot
  /\ json_loads (query (command_line 1 to_file)) = inr pending_filter
  /\ urlencode pending_filter = inr pending_encoded
  /\ fetches (main (command_line 1 to_file) boot).1
     = [listing_url pending_encoded].
Proof.
  assert (E0 : json_loads (query SampleMore.number_query) = inr (JNum 5))
    by (vm_compute; reflexivity).
  assert (E1 : json_loads (query (command_line 1 to_file)) = inr pending_filter)
    by (vm_compute; reflexivity).
  assert (E2 : urlencode pending_filter = inr pending_encoded)
    by (vm_compute; reflexivity).
  split; [exact E0|]. split; [|split; [exact E1|split; [exact E2|]]].
  - destruct (one_listing_request SampleMore.number_query (JNum 5) boot E0)
      as [Hfail _].
    exact (proj2 (Hfail _ eq_refl)).
  - destruct (one_listing_request (command_line 1 to_file) pending_filter boot
                E1) as [_ Hone].
    exact (Hone pending_encoded E2).
Defined.

Lemma warnings_only_for_other_errors_witness :
  In (Review 4 (StatusFails "HTTP 500")) inbox
  /\ warnings handler (Review 4 (StatusFails "HTTP 500")) <> []
  /\ passes handler (Review 5 Ready) = true
  /\ (exists text,
         resolution_raises handler (Review 4 (StatusFails "HTTP 500"))
           (Exception text)
         /\ warnings handler (Review 4 (StatusFails "HTTP 500"))
            = warning_lines (Review 4 (StatusFails "HTTP 500")) text)
  /\ warnings handler (Review 5 Ready) = [].
Proof.
  assert (Hin : In (Review 4 (StatusFails "HTTP 500")) inbox)
    by (simpl; tauto).
  assert (Hlines : warnings handler (Review 4 (StatusFails "HTTP 500")) <> [])
    by discriminate.
  assert (Hp : passes handler (Review 5 Ready) = true) by reflexivity.
  split; [exact Hin|]. split; [exact Hlines|]. split; [exact Hp|].
  destruct (warnings_only_for_other_errors handler (-1) inbox boot)
    as (_ & _ & _ & _ & _ & _ & _ & Hother & _ & Hpass).
  split; [exact (Hother _ Hin Hlines) | exact (Hpass _ Hp)].
Defined.
